(** * spatial_platform: the spatial query and validation engine

    A shallow embedding of [spatial_app/models.py], [spatial_app/serializers.py]
    and [spatial_app/views.py].

    Conventions of the embedding.
    - Python floats are idealised as rationals ([Q]); [round(x, 2)] is
      rounding to the nearest hundredth, ties to even.
    - The database is a pair of tables (lists of rows, in insertion order)
      threaded explicitly through every view, together with a logical clock
      standing for [timezone.now()] and a counter standing for [uuid.uuid4].
    - What the application delegates to GEOS, GDAL and the spatial database
      (validity, planar area, reprojection, containment, distance) and to the
      Python builtins [float] and [int] is the interface [GIS]; the views are
      written once, over any implementation of it.
    - A request payload is modelled after JSON decoding: each field is absent
      or carries a value of the type its serializer field produces. *)

From Stdlib Require Import ZArith QArith Qround Qabs List String Ascii Bool.
From Stdlib Require Import Lia Lqa Permutation Sorted.
Import ListNotations.

Set Implicit Arguments.
Local Open Scope Q_scope.

(* ================================================================= *)
(** ** Numbers *)

(** [round_half_even q]: the integer nearest to [q], ties to the even one. *)
Definition round_half_even (q : Q) : Z :=
  let n := Qfloor q in
  match Qcompare (q - inject_Z n) (1 # 2) with
  | Lt => n
  | Gt => (n + 1)%Z
  | Eq => if Z.even n then n else (n + 1)%Z
  end.

(** Python's [round(x, 2)]. *)
Definition round2 (q : Q) : Q := Qred (round_half_even (q * 100) # 100).

(** [sum] of a column of numbers. *)
Definition Qsum (l : list Q) : Q := fold_right Qplus 0 l.

(* ================================================================= *)
(** ** Strings *)

Definition lower_ascii (c : ascii) : ascii :=
  let n := nat_of_ascii c in
  if ((65 <=? n) && (n <=? 90))%nat then ascii_of_nat (n + 32) else c.

(** [str.lower()] on ASCII text. *)
Fixpoint lower (s : string) : string :=
  match s with
  | EmptyString => EmptyString
  | String c r => String (lower_ascii c) (lower r)
  end.

(** [sub in s]: [sub] occurs in [s] as a contiguous substring. *)
Fixpoint contains_str (sub s : string) : bool :=
  if prefix sub s then true
  else match s with
       | EmptyString => false
       | String _ r => contains_str sub r
       end.

(** The [name__icontains] lookup. *)
Definition icontains (name sub : string) : bool :=
  contains_str (lower sub) (lower name).

Definition is_space (c : ascii) : bool :=
  let n := nat_of_ascii c in ((n =? 32) || ((9 <=? n) && (n <=? 13)))%nat.

Fixpoint lstrip (s : string) : string :=
  match s with
  | String c r => if is_space c then lstrip r else s
  | EmptyString => EmptyString
  end.

(** Whether a string is blank once its surrounding whitespace is trimmed. *)
Definition blank (s : string) : bool :=
  match lstrip s with EmptyString => true | _ => false end.

(** Query parameters ([request.GET]), in the order of the query string. *)
Definition QueryDict := list (string * string).

(** [QueryDict.get]: the last value given for the key. *)
Fixpoint qget (k : string) (q : QueryDict) : option string :=
  match q with
  | [] => None
  | (k', v) :: r =>
      match qget k r with
      | Some last => Some last
      | None => if String.eqb k k' then Some v else None
      end
  end.

(** Truthiness of an optional string: [None] and [''] are falsy. *)
Definition truthy (o : option string) : bool :=
  match o with
  | None => false
  | Some EmptyString => false
  | Some _ => true
  end.

(* ================================================================= *)
(** ** Geometry values *)

(** [django.contrib.gis.geos.Point]: [x] is the longitude, [y] the latitude. *)
Record Point := mkPoint { pt_x : Q; pt_y : Q; pt_srid : Z }.

Definition LinearRing := list (Q * Q).

(** [django.contrib.gis.geos.Polygon]: the shell followed by the holes. *)
Record Polygon := mkPolygon { pg_rings : list LinearRing; pg_srid : Z }.

(** What a geometry field decodes a GeoJSON geometry to. *)
Inductive GEOSGeometry :=
| GPoint (p : Point)
| GLineString (c : list (Q * Q)) (srid : Z)
| GPolygon (g : Polygon)
| GMultiPoint (ps : list Point).

Definition WGS84 : Z := 4326.
Definition WEB_MERCATOR : Z := 3857.

Inductive Unit := Degree | Metre.

(** The linear unit of the two coordinate reference systems the code names. *)
Definition srid_unit (srid : Z) : option Unit :=
  if (srid =? WGS84)%Z then Some Degree
  else if (srid =? WEB_MERCATOR)%Z then Some Metre
  else None.

(* ================================================================= *)
(** ** The geometry and database collaborators *)

Class GIS := {
  (** [float(s)]: [None] stands for [ValueError]. *)
  py_float : string -> option Q;
  (** [int(s)]: [None] stands for [ValueError]. *)
  py_int : string -> option Z;
  (** [GEOSGeometry.valid] on a polygon. *)
  geos_valid : Polygon -> bool;
  (** [GEOSGeometry.area]: planar area of the rings, in the square of the unit
      of the coordinates. *)
  geos_area : list LinearRing -> Q;
  (** Reprojection of coordinates from one reference system to another. *)
  reproject : Z -> Z -> list LinearRing -> list LinearRing;
  (** The [contains] lookup: the polygon contains the point. *)
  st_contains : Polygon -> Point -> bool;
  (** The [intersects] lookup. *)
  st_intersects : Polygon -> Polygon -> bool;
  (** The [Distance] function, read in metres ([.m]). *)
  st_distance : Point -> Point -> Q;
  (** The [dwithin] lookup with the distance parameter [d]. *)
  st_dwithin : Point -> Point -> Q -> bool
}.

(** [GEOSGeometry.transform(ct, clone=True)]. *)
Definition transform `{GIS} (ct : Z) (g : Polygon) : Polygon :=
  {| pg_rings := reproject (pg_srid g) ct (pg_rings g); pg_srid := ct |}.

(** [Polygon.area], the property of a geometry value. *)
Definition geom_area `{GIS} (g : Polygon) : Q := geos_area (pg_rings g).

(** The unit in which [geom_area g] is expressed is the square of this one. *)
Definition area_unit (g : Polygon) : option Unit := srid_unit (pg_srid g).

(* ================================================================= *)
(** ** serializers.py: the field validators *)

Definition Qleb (a b : Q) : bool := Qle_bool a b.
Definition Qltb (a b : Q) : bool := negb (Qle_bool b a).

(** [SpatialPointDataSerializer.validate_location]. *)
Definition validate_location (value : GEOSGeometry) : string + Point :=
  match value with
  | GPoint p =>
      let lat := pt_y p in
      let lng := pt_x p in
      if negb (Qleb (-90) lat && Qleb lat 90) then
        inl "Latitude must be between -90 and 90 degrees"%string
      else if negb (Qleb (-180) lng && Qleb lng 180) then
        inl "Longitude must be between -180 and 180 degrees"%string
      else inr p
  | _ => inl "Location must be a valid Point geometry"%string
  end.

(** The minimum area threshold, [1e-10]. *)
Definition MIN_AREA : Q := 1 # 10000000000.

(** [SpatialPolygonDataSerializer.validate_geometry]. *)
Definition validate_geometry `{GIS} (value : GEOSGeometry) : string + Polygon :=
  match value with
  | GPolygon g =>
      if negb (geos_valid g) then inl "Invalid polygon geometry"%string
      else if Qltb (geom_area g) MIN_AREA then inl "Polygon area is too small"%string
      else inr g
  | _ => inl "Geometry must be a valid Polygon"%string
  end.

(* ================================================================= *)
(** ** models.py *)

Abbreviation UUID := N.
Definition JSONObject := list (string * string).

Module SpatialPointData.
Record t := mk {
  id : UUID;
  name : string;
  description : option string;
  location : Point;
  properties : JSONObject;
  created_at : Z;
  updated_at : Z;
  is_active : bool;
  (** [_state.adding]: the instance has no row yet. *)
  adding : bool
}.

End SpatialPointData.

Module SpatialPolygonData.
Record t := mk {
  id : UUID;
  name : string;
  description : option string;
  geometry : option Polygon;
  area : option Q;
  properties : JSONObject;
  created_at : Z;
  updated_at : Z;
  is_active : bool;
  adding : bool
}.
End SpatialPolygonData.

Abbreviation PointRow := SpatialPointData.t.
Abbreviation PolygonRow := SpatialPolygonData.t.

(** The database: both tables, the clock and the source of fresh ids. *)
Record DB := mkDB {
  points : list PointRow;
  polygons : list PolygonRow;
  now : Z;
  next_uuid : UUID
}.

Definition tick (db : DB) : DB :=
  {| points := points db; polygons := polygons db;
     now := (now db + 1)%Z; next_uuid := next_uuid db |}.

Definition with_points (db : DB) (l : list PointRow) : DB :=
  {| points := l; polygons := polygons db; now := now db; next_uuid := next_uuid db |}.

Definition with_polygons (db : DB) (l : list PolygonRow) : DB :=
  {| points := points db; polygons := l; now := now db; next_uuid := next_uuid db |}.

Definition take_uuid (db : DB) : UUID * DB :=
  (next_uuid db,
   {| points := points db; polygons := polygons db; now := now db;
      next_uuid := (next_uuid db + 1)%N |}).

(** Replace every row that [same] designates by [new]. *)
Definition replace_row {R} (same : R -> bool) (new : R) (l : list R) : list R :=
  map (fun r => if same r then new else r) l.

(** [Model.save] for a point: [auto_now_add] and [auto_now] are filled in;
    a new instance is inserted, any other one updates the row of its primary
    key and is inserted when there is no such row. *)
Definition save_point (self : PointRow) (db : DB) : PointRow * DB :=
  let t := now db in
  let row :=
    SpatialPointData.mk (SpatialPointData.id self) (SpatialPointData.name self)
      (SpatialPointData.description self) (SpatialPointData.location self)
      (SpatialPointData.properties self)
      (if SpatialPointData.adding self then t else SpatialPointData.created_at self)
      t (SpatialPointData.is_active self) false in
  let same := fun r => N.eqb (SpatialPointData.id r) (SpatialPointData.id self) in
  let rows :=
    if SpatialPointData.adding self || negb (existsb same (points db))
    then points db ++ [row]
    else replace_row same row (points db) in
  (row, tick (with_points db rows)).

Definition set_area (self : PolygonRow) (a : option Q) : PolygonRow :=
  SpatialPolygonData.mk (SpatialPolygonData.id self) (SpatialPolygonData.name self)
    (SpatialPolygonData.description self) (SpatialPolygonData.geometry self) a
    (SpatialPolygonData.properties self) (SpatialPolygonData.created_at self)
    (SpatialPolygonData.updated_at self) (SpatialPolygonData.is_active self)
    (SpatialPolygonData.adding self).

(** [super().save()] for a polygon. The [geometry] column is not nullable:
    [None] stands for the [IntegrityError] of a missing geometry. *)
Definition super_save (self : PolygonRow) (db : DB) : option (PolygonRow * DB) :=
  match SpatialPolygonData.geometry self with
  | None => None
  | Some _ =>
      let t := now db in
      let row :=
        SpatialPolygonData.mk (SpatialPolygonData.id self)
          (SpatialPolygonData.name self) (SpatialPolygonData.description self)
          (SpatialPolygonData.geometry self) (SpatialPolygonData.area self)
          (SpatialPolygonData.properties self)
          (if SpatialPolygonData.adding self then t
           else SpatialPolygonData.created_at self)
          t (SpatialPolygonData.is_active self) false in
      let same :=
        fun r => N.eqb (SpatialPolygonData.id r) (SpatialPolygonData.id self) in
      let rows :=
        if SpatialPolygonData.adding self || negb (existsb same (polygons db))
        then polygons db ++ [row]
        else replace_row same row (polygons db) in
      Some (row, tick (with_polygons db rows))
  end.

(** [SpatialPolygonData.save]. *)
Definition save `{GIS} (self : PolygonRow) (db : DB) : option (PolygonRow * DB) :=
  let self :=
    match SpatialPolygonData.geometry self with
    | Some g =>
        let transformed_geom := transform WEB_MERCATOR g in
        set_area self (Some (geom_area transformed_geom))
    | None => self
    end in
  super_save self db.

(* ================================================================= *)
(** ** serializers.py: validation, create and update *)

Fixpoint string_rev (s : string) : string :=
  match s with
  | EmptyString => EmptyString
  | String c r => (string_rev r ++ String c EmptyString)%string
  end.

(** [str.strip()]. *)
Definition strip (s : string) : string :=
  string_rev (lstrip (string_rev (lstrip s))).

(** A geometry as it arrives: one the geometry field cannot decode, or a
    decoded value of any geometry type. *)
Inductive GeometryInput := Undecodable | Decoded (g : GEOSGeometry).

(** A value sent for a number field: null, a number, or anything the float
    field refuses. *)
Inductive NumberInput := Null | Number (x : Q) | NotANumber.

(** The data handed to a serializer. The geometry is the value under the
    serializer's [geo_field]; [in_area] is read by the polygon serializer
    only. *)
Record Payload := mkPayload {
  in_name : option string;
  in_description : option (option string);
  in_geometry : option GeometryInput;
  in_area : option NumberInput;
  in_properties : option JSONObject;
  in_is_active : option bool
}.

(** [validated_data]: the fields that were supplied, converted. *)
Record Validated (G : Type) := mkValidated {
  v_name : option string;
  v_description : option (option string);
  v_geometry : option G;
  v_area : option (option Q);
  v_properties : option JSONObject;
  v_is_active : option bool
}.

(** [serializer.errors]: field name and message. *)
Definition Errors := list (string * string).

Definition check_name (partial : bool) (v : option string) : Errors :=
  match v with
  | None => if partial then [] else [("name", "This field is required.")]%string
  | Some s =>
      if blank s then [("name", "This field may not be blank.")]%string
      else if (255 <? String.length (strip s))%nat
           then [("name", "Ensure this field has no more than 255 characters.")]%string
           else []
  end.

(** The geometry field followed by its [validate_<field>] hook. *)
Definition check_geo {G} (field : string) (hook : GEOSGeometry -> string + G)
    (partial : bool) (v : option GeometryInput) : Errors * option G :=
  match v with
  | None =>
      if partial then ([], None)
      else ([(field, "This field is required."%string)], None)
  | Some Undecodable => ([(field, "Invalid format: unable to decode the geometry."%string)], None)
  | Some (Decoded g) =>
      match hook g with
      | inl msg => ([(field, msg)], None)
      | inr x => ([], Some x)
      end
  end.

(** The float field [area] of the polygon serializer: optional, nullable. *)
Definition check_area (with_area : bool) (v : option NumberInput)
  : Errors * option (option Q) :=
  if with_area then
    match v with
    | None => ([], None)
    | Some Null => ([], Some None)
    | Some (Number x) => ([], Some (Some x))
    | Some NotANumber => ([("area", "A valid number is required.")]%string, None)
    end
  else ([], None).

(** [serializer.is_valid()]: the errors, or the validated data. *)
Definition run_validation {G} (field : string) (hook : GEOSGeometry -> string + G)
    (with_area : bool) (partial : bool) (d : Payload) : Errors + Validated G :=
  let (geo_errors, geo) := check_geo field hook partial (in_geometry d) in
  let (area_errors, area) := check_area with_area (in_area d) in
  match (check_name partial (in_name d) ++ geo_errors ++ area_errors)%list with
  | [] =>
      inr (mkValidated (option_map strip (in_name d))
             (option_map (option_map strip) (in_description d)) geo area
             (in_properties d) (in_is_active d))
  | errors => inl errors
  end.

Definition SpatialPointDataSerializer (partial : bool) (d : Payload)
  : Errors + Validated Point :=
  run_validation "location" validate_location false partial d.

Definition SpatialPolygonDataSerializer `{GIS} (partial : bool) (d : Payload)
  : Errors + Validated Polygon :=
  run_validation "geometry" validate_geometry true partial d.

Definition or_default {A} (o : option A) (d : A) : A :=
  match o with Some a => a | None => d end.

(** [serializer.save()] without an instance: [Model.objects.create]. A point
    serializer only yields validated data with a location when none is
    partial; [None] stands for the missing required column. *)
Definition create_point (v : Validated Point) (db : DB) : option (PointRow * DB) :=
  match v_geometry v with
  | None => None
  | Some loc =>
      let (uuid, db) := take_uuid db in
      Some (save_point
              (SpatialPointData.mk uuid (or_default (v_name v) ""%string)
                 (or_default (v_description v) None) loc
                 (or_default (v_properties v) []) 0 0
                 (or_default (v_is_active v) true) true) db)
  end.

(** [serializer.save()] with an instance: every validated attribute is set on
    it, then it is saved. *)
Definition update_point (instance : PointRow) (v : Validated Point) (db : DB)
  : PointRow * DB :=
  save_point
    (SpatialPointData.mk (SpatialPointData.id instance)
       (or_default (v_name v) (SpatialPointData.name instance))
       (or_default (v_description v) (SpatialPointData.description instance))
       (or_default (v_geometry v) (SpatialPointData.location instance))
       (or_default (v_properties v) (SpatialPointData.properties instance))
       (SpatialPointData.created_at instance) (SpatialPointData.updated_at instance)
       (or_default (v_is_active v) (SpatialPointData.is_active instance))
       (SpatialPointData.adding instance)) db.

Definition create_polygon `{GIS} (v : Validated Polygon) (db : DB)
  : option (PolygonRow * DB) :=
  let (uuid, db) := take_uuid db in
  save (SpatialPolygonData.mk uuid (or_default (v_name v) ""%string)
          (or_default (v_description v) None) (v_geometry v)
          (or_default (v_area v) None)
          (or_default (v_properties v) []) 0 0
          (or_default (v_is_active v) true) true) db.

Definition update_polygon `{GIS} (instance : PolygonRow) (v : Validated Polygon)
    (db : DB) : option (PolygonRow * DB) :=
  save (SpatialPolygonData.mk (SpatialPolygonData.id instance)
          (or_default (v_name v) (SpatialPolygonData.name instance))
          (or_default (v_description v) (SpatialPolygonData.description instance))
          (match v_geometry v with
           | Some g => Some g
           | None => SpatialPolygonData.geometry instance
           end)
          (or_default (v_area v) (SpatialPolygonData.area instance))
          (or_default (v_properties v) (SpatialPolygonData.properties instance))
          (SpatialPolygonData.created_at instance)
          (SpatialPolygonData.updated_at instance)
          (or_default (v_is_active v) (SpatialPolygonData.is_active instance))
          (SpatialPolygonData.adding instance)) db.

(* ================================================================= *)
(** ** views.py: responses, querysets and pagination *)

Definition HTTP_200_OK : Z := 200.
Definition HTTP_201_CREATED : Z := 201.
Definition HTTP_204_NO_CONTENT : Z := 204.
Definition HTTP_207_MULTI_STATUS : Z := 207.
Definition HTTP_400_BAD_REQUEST : Z := 400.
Definition HTTP_404_NOT_FOUND : Z := 404.
Definition HTTP_405_METHOD_NOT_ALLOWED : Z := 405.
Definition HTTP_500_INTERNAL_SERVER_ERROR : Z := 500.

Inductive Method := GET | POST | PUT | PATCH | DELETE.

(** The body of a response; a serialized entity is represented by its row. *)
Inductive Body (R : Type) :=
| Rows (rows : list R)
| Page (count : nat) (results : list R)
| One (row : R)
| Nearby (data : list (R * Q))
| ErrorMessage (error : string)
| FieldErrors (errors : Errors)
| Bulk (created : nat) (errors : nat) (created_rows : list R)
       (validation_errors : option (list (nat * Errors)))
| Summary (total_points total_polygons : nat)
          (total_polygon_area_sqm total_polygon_area_sqkm : Q) (timestamp : Z)
| Empty.

Arguments ErrorMessage {R}.
Arguments FieldErrors {R}.
Arguments Summary {R}.
Arguments Empty {R}.

Record Response (R : Type) := mkResponse { status : Z; body : Body R }.

(** [order_by]: a stable insertion sort along [leb]. *)
Fixpoint insert_by {R} (leb : R -> R -> bool) (x : R) (l : list R) : list R :=
  match l with
  | [] => [x]
  | y :: r => if leb x y then x :: l else y :: insert_by leb x r
  end.

Definition order_by {R} (leb : R -> R -> bool) (l : list R) : list R :=
  fold_right (insert_by leb) [] l.

(** [StandardResultsSetPagination]. *)
Module StandardResultsSetPagination.
Definition page_size : Z := 20.
Definition page_size_query_param : string := "page_size".
Definition max_page_size : Z := 100.
End StandardResultsSetPagination.

(** [PageNumberPagination.get_page_size]: a strictly positive integer, cut
    off at [max_page_size]; anything else falls back to [page_size]. *)
Definition get_page_size `{GIS} (q : QueryDict) : Z :=
  match qget StandardResultsSetPagination.page_size_query_param q with
  | None => StandardResultsSetPagination.page_size
  | Some s =>
      match py_int s with
      | None => StandardResultsSetPagination.page_size
      | Some ret =>
          if (ret <=? 0)%Z then StandardResultsSetPagination.page_size
          else Z.min ret StandardResultsSetPagination.max_page_size
      end
  end.

(** [Paginator.num_pages], with an empty first page allowed. *)
Definition num_pages (count : nat) (per_page : Z) : Z :=
  let hits := Z.max 1 (Z.of_nat count) in
  ((hits + per_page - 1) / per_page)%Z.

(** [get_page_number] followed by [Paginator.validate_number]; [None] stands
    for [InvalidPage]. *)
Definition get_page_number `{GIS} (q : QueryDict) (pages : Z) : option Z :=
  let o := qget "page" q in
  if negb (truthy o) then Some 1%Z
  else match o with
       | None => Some 1%Z
       | Some s =>
           if String.eqb s "last" then Some pages
           else match py_int s with
                | None => None
                | Some n => if ((n <? 1) || (pages <? n))%Z then None else Some n
                end
       end.

(** [paginate_queryset]: the rows of the requested page; [None] stands for
    the [NotFound] raised on an invalid page. *)
Definition paginate_queryset `{GIS} {R} (queryset : list R) (q : QueryDict)
  : option (list R) :=
  let per_page := get_page_size q in
  match get_page_number q (num_pages (List.length queryset) per_page) with
  | None => None
  | Some number =>
      let bottom := ((number - 1) * per_page)%Z in
      Some (firstn (Z.to_nat per_page) (skipn (Z.to_nat bottom) queryset))
  end.

Definition paginated_response `{GIS} {R} (queryset : list R) (q : QueryDict)
  : Response R :=
  match paginate_queryset queryset q with
  | Some page => mkResponse HTTP_200_OK (Page (List.length queryset) page)
  | None => mkResponse HTTP_404_NOT_FOUND (ErrorMessage "Invalid page.")
  end.

(** [is_active.lower() == 'true']. *)
Definition parse_flag (is_active : string) : bool :=
  String.eqb (lower is_active) "true".

(** The filters shared by both list views: [name] and [is_active]. *)
Definition filter_common {R} (name_of : R -> string) (active_of : R -> bool)
    (q : QueryDict) (queryset : list R) : list R :=
  let name := qget "name" q in
  let is_active := qget "is_active" q in
  let queryset :=
    match name with
    | Some n => if truthy name
                then filter (fun r => icontains (name_of r) n) queryset
                else queryset
    | None => queryset
    end in
  match is_active with
  | Some v => filter (fun r => Bool.eqb (active_of r) (parse_flag v)) queryset
  | None => queryset
  end.

(** [area__gte] and [area__lte]; a null area satisfies neither. *)
Definition area_gte (m : Q) (r : PolygonRow) : bool :=
  match SpatialPolygonData.area r with Some a => Qleb m a | None => false end.

Definition area_lte (m : Q) (r : PolygonRow) : bool :=
  match SpatialPolygonData.area r with Some a => Qleb a m | None => false end.

(** One optional numeric bound: skipped when absent or empty, ignored when
    [float] raises [ValueError]. *)
Definition filter_bound `{GIS} (lookup : Q -> PolygonRow -> bool)
    (bound : option string) (queryset : list PolygonRow) : list PolygonRow :=
  match bound with
  | Some s =>
      if truthy bound then
        match py_float s with
        | Some m => filter (lookup m) queryset
        | None => queryset
        end
      else queryset
  | None => queryset
  end.

Definition newest_first_point (a b : PointRow) : bool :=
  (SpatialPointData.created_at b <=? SpatialPointData.created_at a)%Z.

Definition newest_first_polygon (a b : PolygonRow) : bool :=
  (SpatialPolygonData.created_at b <=? SpatialPolygonData.created_at a)%Z.

(** The queryset of [spatial_points_list_create], before pagination. *)
Definition points_queryset (q : QueryDict) (db : DB) : list PointRow :=
  filter_common SpatialPointData.name SpatialPointData.is_active q
    (order_by newest_first_point (points db)).

(** The queryset of [spatial_polygons_list_create], before pagination. *)
Definition polygons_queryset `{GIS} (q : QueryDict) (db : DB) : list PolygonRow :=
  filter_bound area_lte (qget "max_area" q)
    (filter_bound area_gte (qget "min_area" q)
       (filter_common SpatialPolygonData.name SpatialPolygonData.is_active q
          (order_by newest_first_polygon (polygons db)))).

(* ================================================================= *)
(** ** views.py: the views *)

(** [get_object_or_404]. *)
Definition get_point (point_id : UUID) (db : DB) : option PointRow :=
  find (fun r => N.eqb (SpatialPointData.id r) point_id) (points db).

Definition get_polygon (polygon_id : UUID) (db : DB) : option PolygonRow :=
  find (fun r => N.eqb (SpatialPolygonData.id r) polygon_id) (polygons db).

Definition not_found {R} : Response R :=
  mkResponse HTTP_404_NOT_FOUND (ErrorMessage "Not found.").

Definition method_not_allowed {R} : Response R :=
  mkResponse HTTP_405_METHOD_NOT_ALLOWED (ErrorMessage "Method not allowed.").

Definition server_error {R} : Response R :=
  mkResponse HTTP_500_INTERNAL_SERVER_ERROR (ErrorMessage "Server Error (500)").

(** [spatial_points_list_create]. *)
Definition spatial_points_list_create `{GIS} (method : Method) (q : QueryDict)
    (data : Payload) (db : DB) : Response PointRow * DB :=
  match method with
  | GET => (paginated_response (points_queryset q db) q, db)
  | POST =>
      match SpatialPointDataSerializer false data with
      | inr v =>
          match create_point v db with
          | Some (row, db') => (mkResponse HTTP_201_CREATED (One row), db')
          | None => (server_error, db)
          end
      | inl errors => (mkResponse HTTP_400_BAD_REQUEST (FieldErrors errors), db)
      end
  | _ => (method_not_allowed, db)
  end.

(** [spatial_point_detail]. *)
Definition spatial_point_detail (method : Method) (point_id : UUID)
    (data : Payload) (db : DB) : Response PointRow * DB :=
  match method with
  | POST => (method_not_allowed, db)
  | _ =>
      match get_point point_id db with
      | None => (not_found, db)
      | Some point =>
          match method with
          | GET => (mkResponse HTTP_200_OK (One point), db)
          | PUT | PATCH =>
              let partial := match method with PATCH => true | _ => false end in
              match SpatialPointDataSerializer partial data with
              | inr v =>
                  let (row, db') := update_point point v db in
                  (mkResponse HTTP_200_OK (One row), db')
              | inl errors =>
                  (mkResponse HTTP_400_BAD_REQUEST (FieldErrors errors), db)
              end
          | DELETE =>
              (mkResponse HTTP_204_NO_CONTENT (@Empty PointRow),
               with_points db
                 (filter (fun r => negb (N.eqb (SpatialPointData.id r) point_id))
                    (points db)))
          | POST => (method_not_allowed, db)
          end
      end
  end.

(** [float(request.GET.get(key))]: [None] stands for the [TypeError] of a
    missing parameter and the [ValueError] of a non-numeric one. *)
Definition float_param `{GIS} (key : string) (q : QueryDict) : option Q :=
  match qget key q with
  | None => None
  | Some s => py_float s
  end.

(** [float(request.GET.get('distance', 1000))]. *)
Definition distance_param `{GIS} (q : QueryDict) : option Q :=
  match qget "distance" q with
  | None => Some 1000
  | Some s => py_float s
  end.

Definition distance_m `{GIS} (search_point : Point) (r : PointRow) : Q :=
  st_distance (SpatialPointData.location r) search_point.

Definition nearest_first `{GIS} (search_point : Point) (a b : PointRow) : bool :=
  Qleb (distance_m search_point a) (distance_m search_point b).

(** The queryset of [spatial_points_nearby]. *)
Definition nearby_points `{GIS} (search_point : Point) (distance : Q) (db : DB)
  : list PointRow :=
  order_by (nearest_first search_point)
    (filter (fun r => st_dwithin (SpatialPointData.location r) search_point distance
                      && SpatialPointData.is_active r)
       (points db)).

(** A geometry field of a model: its reference system, and whether its
    column is of the geography type. *)
Record GeometryField := mkGeometryField { field_srid : Z; field_geography : bool }.

(** models.py: [location = models.PointField(srid=4326)]. *)
Definition location_field : GeometryField := mkGeometryField WGS84 false.

(** The reference system of the field is in degrees. *)
Definition geodetic (f : GeometryField) : bool :=
  match srid_unit (field_srid f) with
  | Some Degree => true
  | _ => false
  end.

(** A distance handed to a lookup: a [Distance] object, [D(m=...)], or a
    plain number in the unit of the field. *)
Inductive DistanceValue := D (m : Q) | Plain (n : Q).

(** The distance parameter GeoDjango derives for the [dwithin] lookup. A
    plain number is taken as it is. A [Distance] object is read in metres on
    a geography column and on a projected one; on a geometry column in
    degrees it is refused: "Only numeric values of degree units are allowed
    on geographic DWithin queries". [None] stands for that [ValueError]. *)
Definition dwithin_distance (f : GeometryField) (value : DistanceValue) : option Q :=
  match value with
  | Plain n => Some n
  | D m => if field_geography f then Some m
           else if geodetic f then None
           else Some m
  end.

(** [spatial_points_nearby]. The queryset is evaluated by the loop that
    serializes it, after the [try] that guards the parameters: an error of
    the lookup is not caught and ends the request. *)
Definition spatial_points_nearby `{GIS} (q : QueryDict) (db : DB) : Response PointRow :=
  match float_param "lat" q, float_param "lng" q, distance_param q with
  | Some lat, Some lng, Some distance =>
      let search_point := mkPoint lng lat WGS84 in
      match dwithin_distance location_field (D distance) with
      | Some within =>
          let data :=
            map (fun point => (point, round2 (distance_m search_point point)))
              (nearby_points search_point within db) in
          mkResponse HTTP_200_OK (Nearby data)
      | None => server_error
      end
  | _, _, _ =>
      mkResponse HTTP_400_BAD_REQUEST
        (ErrorMessage "Invalid parameters. lat, lng, and distance must be numbers")
  end.

(** The request body of a bulk view. *)
Inductive JSONValue := JArray (items : list Payload) | JOther.
Inductive RequestData := DictData (d : list (string * JSONValue)) | OtherData.

Fixpoint dict_get (k : string) (d : list (string * JSONValue)) : option JSONValue :=
  match d with
  | [] => None
  | (k', v) :: r => if String.eqb k k' then Some v else dict_get k r
  end.

(** The loop of the bulk views. [None] in the first component stands for an
    exception raised by [serializer.save()], which ends the request. *)
Fixpoint bulk_loop {G R} (serializer : Payload -> Errors + Validated G)
    (create : Validated G -> DB -> option (R * DB))
    (i : nat) (items : list Payload)
    (created : list R) (errors : list (nat * Errors)) (db : DB)
  : option (list R * list (nat * Errors)) * DB :=
  match items with
  | [] => (Some (created, errors), db)
  | item :: rest =>
      match serializer item with
      | inr v =>
          match create v db with
          | Some (row, db') =>
              bulk_loop serializer create (S i) rest (created ++ [row]) errors db'
          | None => (None, db)
          end
      | inl e =>
          bulk_loop serializer create (S i) rest created (errors ++ [(i, e)]) db
      end
  end.

(** The double quote, and a text between double quotes. *)
Definition quoted (s : string) : string :=
  (String (ascii_of_nat 34) s ++ String (ascii_of_nat 34) EmptyString)%string.

Definition POINTS_MISSING : string :=
  ("Request must contain " ++ quoted "points" ++ " array")%string.
Definition POINTS_NOT_ARRAY : string := "Points must be an array".
Definition POLYGONS_MISSING : string :=
  ("Request must contain " ++ quoted "polygons" ++ " array")%string.
Definition POLYGONS_NOT_ARRAY : string := "Polygons must be an array".

Definition is_nil {A} (l : list A) : bool :=
  match l with [] => true | _ => false end.

Definition bulk_create {G R} (key : string) (missing not_array : string)
    (serializer : Payload -> Errors + Validated G)
    (create : Validated G -> DB -> option (R * DB))
    (data : RequestData) (db : DB) : Response R * DB :=
  match data with
  | OtherData => (mkResponse HTTP_400_BAD_REQUEST (ErrorMessage missing), db)
  | DictData d =>
      match dict_get key d with
      | None => (mkResponse HTTP_400_BAD_REQUEST (ErrorMessage missing), db)
      | Some JOther => (mkResponse HTTP_400_BAD_REQUEST (ErrorMessage not_array), db)
      | Some (JArray items) =>
          match bulk_loop serializer create 0 items [] [] db with
          | (Some (created, errors), db') =>
              if negb (is_nil errors) then
                (mkResponse HTTP_207_MULTI_STATUS
                   (Bulk (List.length created) (List.length errors) created
                      (Some errors)), db')
              else
                (mkResponse HTTP_201_CREATED
                   (Bulk (List.length created) (List.length errors) created None),
                 db')
          | (None, db') => (server_error, db')
          end
      end
  end.

(** [spatial_points_bulk_create]. *)
Definition spatial_points_bulk_create (data : RequestData) (db : DB)
  : Response PointRow * DB :=
  bulk_create "points" POINTS_MISSING POINTS_NOT_ARRAY (SpatialPointDataSerializer false) create_point data db.

(** [spatial_polygons_bulk_create]. *)
Definition spatial_polygons_bulk_create `{GIS} (data : RequestData) (db : DB)
  : Response PolygonRow * DB :=
  bulk_create "polygons" POLYGONS_MISSING POLYGONS_NOT_ARRAY (SpatialPolygonDataSerializer false) create_polygon
    data db.

(** [spatial_polygons_list_create]. *)
Definition spatial_polygons_list_create `{GIS} (method : Method) (q : QueryDict)
    (data : Payload) (db : DB) : Response PolygonRow * DB :=
  match method with
  | GET => (paginated_response (polygons_queryset q db) q, db)
  | POST =>
      match SpatialPolygonDataSerializer false data with
      | inr v =>
          match create_polygon v db with
          | Some (row, db') => (mkResponse HTTP_201_CREATED (One row), db')
          | None => (server_error, db)
          end
      | inl errors => (mkResponse HTTP_400_BAD_REQUEST (FieldErrors errors), db)
      end
  | _ => (method_not_allowed, db)
  end.

(** [spatial_polygon_detail]. *)
Definition spatial_polygon_detail `{GIS} (method : Method) (polygon_id : UUID)
    (data : Payload) (db : DB) : Response PolygonRow * DB :=
  match method with
  | POST => (method_not_allowed, db)
  | _ =>
      match get_polygon polygon_id db with
      | None => (not_found, db)
      | Some polygon =>
          match method with
          | GET => (mkResponse HTTP_200_OK (One polygon), db)
          | PUT | PATCH =>
              let partial := match method with PATCH => true | _ => false end in
              match SpatialPolygonDataSerializer partial data with
              | inr v =>
                  match update_polygon polygon v db with
                  | Some (row, db') => (mkResponse HTTP_200_OK (One row), db')
                  | None => (server_error, db)
                  end
              | inl errors =>
                  (mkResponse HTTP_400_BAD_REQUEST (FieldErrors errors), db)
              end
          | DELETE =>
              (mkResponse HTTP_204_NO_CONTENT (@Empty PolygonRow),
               with_polygons db
                 (filter (fun r => negb (N.eqb (SpatialPolygonData.id r) polygon_id))
                    (polygons db)))
          | POST => (method_not_allowed, db)
          end
      end
  end.

(** The [geometry__contains] lookup on a row. *)
Definition geometry_contains `{GIS} (search_point : Point) (r : PolygonRow) : bool :=
  match SpatialPolygonData.geometry r with
  | Some g => st_contains g search_point
  | None => false
  end.

(** [spatial_polygons_containing_point]. *)
Definition spatial_polygons_containing_point `{GIS} (q : QueryDict) (db : DB)
  : Response PolygonRow :=
  match float_param "lat" q, float_param "lng" q with
  | Some lat, Some lng =>
      let search_point := mkPoint lng lat WGS84 in
      let containing_polygons :=
        filter (fun r => geometry_contains search_point r
                         && SpatialPolygonData.is_active r)
          (polygons db) in
      mkResponse HTTP_200_OK (Rows containing_polygons)
  | _, _ =>
      mkResponse HTTP_400_BAD_REQUEST
        (ErrorMessage "Invalid parameters. lat and lng must be numbers")
  end.

(** The [geometry__intersects] lookup on a row. *)
Definition geometry_intersects `{GIS} (other : option Polygon) (r : PolygonRow) : bool :=
  match SpatialPolygonData.geometry r, other with
  | Some g, Some o => st_intersects g o
  | _, _ => false
  end.

(** [spatial_polygons_intersecting]. *)
Definition spatial_polygons_intersecting `{GIS} (polygon_id : UUID) (db : DB)
  : Response PolygonRow :=
  match get_polygon polygon_id db with
  | None => not_found
  | Some polygon =>
      let intersecting_polygons :=
        filter (fun r => negb (N.eqb (SpatialPolygonData.id r) polygon_id))
          (filter (fun r => geometry_intersects (SpatialPolygonData.geometry polygon) r
                            && SpatialPolygonData.is_active r)
             (polygons db)) in
      mkResponse HTTP_200_OK (Rows intersecting_polygons)
  end.

(** [Sum('area')]: nulls are skipped, and the sum of no value is null. *)
Fixpoint Sum (column : list (option Q)) : option Q :=
  match column with
  | [] => None
  | None :: rest => Sum rest
  | Some a :: rest =>
      match Sum rest with
      | Some s => Some (a + s)
      | None => Some a
      end
  end.

(** [x or 0]. *)
Definition or_zero (x : option Q) : Q :=
  match x with
  | Some v => if Qeq_bool v 0 then 0 else v
  | None => 0
  end.

(** [spatial_analysis_summary]. *)
Definition spatial_analysis_summary (db : DB) : Response unit :=
  let point_count := List.length (filter SpatialPointData.is_active (points db)) in
  let polygon_count :=
    List.length (filter SpatialPolygonData.is_active (polygons db)) in
  let total_area :=
    or_zero (Sum (map SpatialPolygonData.area
                    (filter SpatialPolygonData.is_active (polygons db)))) in
  mkResponse HTTP_200_OK
    (Summary point_count polygon_count (round2 total_area)
       (round2 (total_area / 1000000)) (now db)).

(* ================================================================= *)
(** ** The service as a transition system *)

(** A request to one of the views that write to the database. *)
Inductive Call :=
| PointsListCreate (method : Method) (q : QueryDict) (data : Payload)
| PointDetail (method : Method) (point_id : UUID) (data : Payload)
| PointsBulkCreate (data : RequestData)
| PolygonsListCreate (method : Method) (q : QueryDict) (data : Payload)
| PolygonDetail (method : Method) (polygon_id : UUID) (data : Payload)
| PolygonsBulkCreate (data : RequestData).

(** The database after a request has been served. *)
Definition handle `{GIS} (c : Call) (db : DB) : DB :=
  match c with
  | PointsListCreate m q d => snd (spatial_points_list_create m q d db)
  | PointDetail m i d => snd (spatial_point_detail m i d db)
  | PointsBulkCreate d => snd (spatial_points_bulk_create d db)
  | PolygonsListCreate m q d => snd (spatial_polygons_list_create m q d db)
  | PolygonDetail m i d => snd (spatial_polygon_detail m i d db)
  | PolygonsBulkCreate d => snd (spatial_polygons_bulk_create d db)
  end.

Definition empty_db : DB := mkDB [] [] 0%Z 0%N.

(** The databases the service can be in: the empty one, and any one a request
    leads to from such a database. *)
Inductive reachable `{GIS} : DB -> Prop :=
| reachable_empty : reachable empty_db
| reachable_handle c db : reachable db -> reachable (handle c db).

(** The stored area of a polygon row is the planar area of its stored
    geometry once reprojected to Web Mercator. *)
Definition area_consistent `{GIS} (r : PolygonRow) : Prop :=
  exists g,
    SpatialPolygonData.geometry r = Some g /\
    SpatialPolygonData.area r = Some (geom_area (transform WEB_MERCATOR g)).

(** The constraints of [validate_location]. *)
Definition point_in_range (p : Point) : Prop :=
  -90 <= pt_y p /\ pt_y p <= 90 /\ -180 <= pt_x p /\ pt_x p <= 180.

(** The constraints of [validate_geometry]. *)
Definition polygon_acceptable `{GIS} (g : Polygon) : Prop :=
  geos_valid g = true /\ MIN_AREA <= geom_area g.

Definition stored_polygon_acceptable `{GIS} (r : PolygonRow) : Prop :=
  exists g, SpatialPolygonData.geometry r = Some g /\ polygon_acceptable g.

(** A created point row carries the validated attributes. *)
Definition point_row_of (v : Validated Point) (r : PointRow) : Prop :=
  SpatialPointData.name r = or_default (v_name v) ""%string /\
  SpatialPointData.description r = or_default (v_description v) None /\
  Some (SpatialPointData.location r) = v_geometry v /\
  SpatialPointData.properties r = or_default (v_properties v) [] /\
  SpatialPointData.is_active r = or_default (v_is_active v) true.








(** Two characters are the same letter in either case, or the same
    character. *)
Definition same_letter (a b : ascii) : Prop :=
  a = b \/
  (65 <= nat_of_ascii a <= 90 /\ nat_of_ascii b = nat_of_ascii a + 32)%nat \/
  (65 <= nat_of_ascii b <= 90 /\ nat_of_ascii a = nat_of_ascii b + 32)%nat.

(** Two texts are the same, case ignored. *)
Inductive same_text : string -> string -> Prop :=
| same_empty : same_text EmptyString EmptyString
| same_cons a b s t :
    same_letter a b -> same_text s t -> same_text (String a s) (String b t).

(** [sub] occurs in [name], case ignored. *)
Definition contains_ignoring_case (name sub : string) : Prop :=
  exists pre mid post,
    name = (pre ++ mid ++ post)%string /\ same_text mid sub.

(** The library contract of [area]: an area is not negative. *)
Definition area_is_nonnegative `{GIS} : Prop :=
  forall rings, 0 <= geos_area rings.

(* ================================================================= *)
(** ** A planar implementation of the collaborators

    Decimal literals for [float] and [int], coordinates on an
    equirectangular grid (one degree is 111320 metres), shoelace areas,
    even-odd containment and taxicab distances. It is the implementation the
    examples run on. *)

Module Planar.

Definition digit (c : ascii) : option Z :=
  let n := nat_of_ascii c in
  if ((48 <=? n) && (n <=? 57))%nat then Some (Z.of_nat (n - 48)) else None.

Fixpoint digits (s : string) (acc : Z) : option Z :=
  match s with
  | EmptyString => Some acc
  | String c r =>
      match digit c with
      | Some d => digits r (10 * acc + d)%Z
      | None => None
      end
  end.

Definition unsigned (s : string) : option Z :=
  match s with
  | EmptyString => None
  | _ => digits s 0%Z
  end.

Definition int (s : string) : option Z :=
  match s with
  | String "-"%char r => option_map Z.opp (unsigned r)
  | _ => unsigned s
  end.

(** The text before the first dot and, when there is one, the text after. *)
Fixpoint split_dot (s : string) : string * option string :=
  match s with
  | EmptyString => (EmptyString, None)
  | String "."%char r => (EmptyString, Some r)
  | String c r => let (a, b) := split_dot r in (String c a, b)
  end.

Definition unsigned_float (s : string) : option Q :=
  match split_dot s with
  | (a, None) => option_map inject_Z (unsigned a)
  | (a, Some b) =>
      match unsigned a, unsigned b with
      | Some i, Some f =>
          Some (inject_Z i + inject_Z f / inject_Z (10 ^ Z.of_nat (String.length b)))
      | _, _ => None
      end
  end.

Definition float (s : string) : option Q :=
  match s with
  | String "-"%char r => option_map Qopp (unsigned_float r)
  | _ => unsigned_float s
  end.

(** Twice the signed area of a ring. *)
Fixpoint shoelace (ring : LinearRing) : Q :=
  match ring with
  | (x1, y1) :: (((x2, y2) :: _) as rest) => x1 * y2 - x2 * y1 + shoelace rest
  | _ => 0
  end.

Definition ring_area (ring : LinearRing) : Q := Qabs (shoelace ring) / 2.

Definition polygon_area (rings : list LinearRing) : Q :=
  match rings with
  | [] => 0
  | shell :: holes => Qabs (ring_area shell - Qsum (map ring_area holes))
  end.

Definition coord_eqb (a b : Q * Q) : bool :=
  Qeq_bool (fst a) (fst b) && Qeq_bool (snd a) (snd b).

Definition closed (ring : LinearRing) : bool :=
  match ring with
  | [] => false
  | c :: _ => (4 <=? List.length ring)%nat && coord_eqb c (last ring c)
  end.

Definition valid (g : Polygon) : bool :=
  negb (is_nil (pg_rings g)) && forallb closed (pg_rings g).

Definition METRES_PER_DEGREE : Q := 111320.

Definition scale (k : Q) (rings : list LinearRing) : list LinearRing :=
  map (map (fun c => (k * fst c, k * snd c))) rings.

Definition project (from to : Z) (rings : list LinearRing) : list LinearRing :=
  if ((from =? WGS84) && (to =? WEB_MERCATOR))%Z then scale METRES_PER_DEGREE rings
  else if ((from =? WEB_MERCATOR) && (to =? WGS84))%Z
       then scale (/ METRES_PER_DEGREE) rings
       else rings.

(** The horizontal ray from [(px, py)] to the right crosses the edge. *)
Definition crosses (px py : Q) (a b : Q * Q) : bool :=
  let (x1, y1) := a in
  let (x2, y2) := b in
  if Bool.eqb (Qltb py y1) (Qltb py y2) then false
  else Qltb px (x1 + (py - y1) * (x2 - x1) / (y2 - y1)).

Fixpoint crossings (px py : Q) (ring : LinearRing) : nat :=
  match ring with
  | a :: ((b :: _) as rest) =>
      ((if crosses px py a b then 1 else 0) + crossings px py rest)%nat
  | _ => 0%nat
  end.

Definition contains (g : Polygon) (p : Point) : bool :=
  Nat.odd (fold_right (fun ring n => (crossings (pt_x p) (pt_y p) ring + n)%nat)
             0%nat (pg_rings g)).

Definition intersects (a b : Polygon) : bool :=
  existsb (existsb (fun c => contains a (mkPoint (fst c) (snd c) (pg_srid b))))
    (pg_rings b)
  || existsb (existsb (fun c => contains b (mkPoint (fst c) (snd c) (pg_srid a))))
       (pg_rings a).

Definition distance (p q : Point) : Q :=
  METRES_PER_DEGREE * (Qabs (pt_x p - pt_x q) + Qabs (pt_y p - pt_y q)).

Definition dwithin (p q : Point) (d : Q) : bool := Qleb (distance p q) d.

End Planar.

#[export] Instance planar : GIS := {
  py_float := Planar.float;
  py_int := Planar.int;
  geos_valid := Planar.valid;
  geos_area := Planar.polygon_area;
  reproject := Planar.project;
  st_contains := Planar.contains;
  st_intersects := Planar.intersects;
  st_distance := Planar.distance;
  st_dwithin := Planar.dwithin
}.

(** Sample data for the examples. *)
Definition square (x0 y0 side : Q) : Polygon :=
  mkPolygon [[(x0, y0); (x0, y0 + side); (x0 + side, y0 + side); (x0 + side, y0);
              (x0, y0)]] WGS84.

Definition point_payload (name : string) (lng lat : Q) : Payload :=
  mkPayload (Some name) None (Some (Decoded (GPoint (mkPoint lng lat WGS84))))
    None None None.

Definition polygon_payload (name : string) (g : Polygon) : Payload :=
  mkPayload (Some name) None (Some (Decoded (GPolygon g))) None None None.

Definition no_payload : Payload := mkPayload None None None None None None.

Definition deactivate : Payload := mkPayload None None None None None (Some false).



(** What holds of every stored point: it is no longer new, its id was drawn
    before, its timestamps are ordered and in the past, and its location is
    within the ranges of [validate_location]. *)
Definition point_row_ok (db : DB) (r : PointRow) : Prop :=
  SpatialPointData.adding r = false /\
  (SpatialPointData.id r < next_uuid db)%N /\
  (SpatialPointData.created_at r <= SpatialPointData.updated_at r)%Z /\
  (SpatialPointData.updated_at r < now db)%Z /\
  point_in_range (SpatialPointData.location r).

(** What holds of every stored polygon. *)
Definition polygon_row_ok `{GIS} (db : DB) (r : PolygonRow) : Prop :=
  SpatialPolygonData.adding r = false /\
  (SpatialPolygonData.id r < next_uuid db)%N /\
  (SpatialPolygonData.created_at r <= SpatialPolygonData.updated_at r)%Z /\
  (SpatialPolygonData.updated_at r < now db)%Z /\
  area_consistent r /\
  stored_polygon_acceptable r.

(** The invariant of the database. *)
Definition db_ok `{GIS} (db : DB) : Prop :=
  Forall (point_row_ok db) (points db) /\
  NoDup (map SpatialPointData.id (points db)) /\
  Forall (polygon_row_ok db) (polygons db) /\
  NoDup (map SpatialPolygonData.id (polygons db)).

(** The rows of a response body. *)
Definition body_rows {R} (b : Body R) : list R :=
  match b with
  | Rows rows => rows
  | Page _ results => results
  | One row => [row]
  | Nearby data => map fst data
  | Bulk _ _ created_rows _ => created_rows
  | _ => []
  end.

(** The sample database before its second point is deactivated. *)
Definition seeded_db : DB :=
  Eval cbv in
    handle (PolygonsBulkCreate
              (DictData [("polygons"%string,
                          JArray [polygon_payload "block" (square (-74) 39 2);
                                  polygon_payload "field" (square 0 0 (1 # 100))])]))
      (handle (PointsBulkCreate
                 (DictData [("points"%string,
                             JArray [point_payload "kiosk" (-73) (40005 # 1000);
                                     point_payload "depot" (-72999 # 1000) 40;
                                     point_payload "tower" (-72999 # 1000)
                                       (40001 # 1000)])]))
         empty_db).


(** The payload [d] with another value, or none, under [area]. *)
Definition set_in_area (d : Payload) (a : option NumberInput) : Payload :=
  mkPayload (in_name d) (in_description d) (in_geometry d) a (in_properties d)
    (in_is_active d).



(** The requests served by the point views. *)
Definition is_point_call (c : Call) : bool :=
  match c with
  | PointsListCreate _ _ _ | PointDetail _ _ _ | PointsBulkCreate _ => true
  | _ => false
  end.

(** A database for the examples: three points, the second deactivated, and
    two polygons. *)
Definition sample_db : DB :=
  Eval cbv in
    handle (PointDetail PATCH 1 deactivate)
      (handle (PolygonsBulkCreate
                 (DictData [("polygons"%string,
                             JArray [polygon_payload "block" (square (-74) 39 2);
                                     polygon_payload "field" (square 0 0 (1 # 100))])]))
         (handle (PointsBulkCreate
                    (DictData [("points"%string,
                                JArray [point_payload "kiosk" (-73) (40005 # 1000);
                                        point_payload "depot" (-72999 # 1000) 40;
                                        point_payload "tower" (-72999 # 1000)
                                          (40001 # 1000)])]))
            empty_db)).


Definition near_query : QueryDict :=
  [("lat", "40"); ("lng", "-73"); ("distance", "1000")]%string.

(* ================================================================= *)
(** * Properties *)

(** ** Comparisons and rounding *)

Lemma Qleb_le (a b : Q) : Qleb a b = true <-> a <= b.
Proof. unfold Qleb. apply Qle_bool_iff. Qed.

Lemma Qleb_false (a b : Q) : Qleb a b = false <-> b < a.
Proof.
  unfold Qleb. split; intro E.
  - apply Qnot_le_lt. intro L. apply Qle_bool_iff in L. congruence.
  - destruct (Qle_bool a b) eqn:B; [| reflexivity].
    apply Qle_bool_iff in B. exfalso. apply (Qlt_not_le _ _ E B).
Qed.

Lemma Qltb_lt (a b : Q) : Qltb a b = true <-> a < b.
Proof.
  unfold Qltb. rewrite negb_true_iff. apply (Qleb_false b a).
Qed.

Lemma Qltb_false (a b : Q) : Qltb a b = false <-> b <= a.
Proof.
  unfold Qltb. rewrite negb_false_iff. apply (Qleb_le b a).
Qed.

Lemma Qleb_total (a b : Q) : Qleb a b = true \/ Qleb b a = true.
Proof.
  destruct (Qlt_le_dec b a) as [L | L].
  - right. apply Qleb_le. apply Qlt_le_weak. exact L.
  - left. apply Qleb_le. exact L.
Qed.

Lemma round_half_even_bounds (q : Q) :
  (Qfloor q <= round_half_even q <= Qfloor q + 1)%Z.
Proof.
  unfold round_half_even.
  destruct (Qcompare (q - inject_Z (Qfloor q)) (1 # 2));
    [destruct (Z.even (Qfloor q)) | |]; lia.
Qed.


Lemma round_half_even_mono (p q : Q) :
  p <= q -> (round_half_even p <= round_half_even q)%Z.
Proof.
  intro L.
  pose proof (Qfloor_resp_le _ _ L) as F.
  destruct (Z.eq_dec (Qfloor p) (Qfloor q)) as [E | N].
  - unfold round_half_even. rewrite E.
    set (n := Qfloor q).
    assert (D : p - inject_Z n <= q - inject_Z n) by lra.
    destruct (Qcompare_spec (p - inject_Z n) (1 # 2)) as [Cp | Cp | Cp];
      destruct (Qcompare_spec (q - inject_Z n) (1 # 2)) as [Cq | Cq | Cq];
      try destruct (Z.even n); try lia; exfalso; lra.
  - pose proof (round_half_even_bounds p). pose proof (round_half_even_bounds q). lia.
Qed.


Lemma round2_mono (p q : Q) : p <= q -> round2 p <= round2 q.
Proof.
  intro L. unfold round2. rewrite !Qred_correct.
  assert (M : (round_half_even (p * 100) <= round_half_even (q * 100))%Z).
  { apply round_half_even_mono. lra. }
  unfold Qle. simpl. nia.
Qed.

Lemma round2_zero : round2 0 = 0.
Proof. reflexivity. Qed.



(** ** Ordering *)

Section OrderBy.
Context {R : Type} (leb : R -> R -> bool).

Lemma insert_by_perm (x : R) (l : list R) :
  Permutation (insert_by leb x l) (x :: l).
Proof.
  induction l as [| y r IH]; simpl.
  - apply Permutation_refl.
  - destruct (leb x y).
    + apply Permutation_refl.
    + apply Permutation_trans with (y :: x :: r).
      * apply perm_skip. exact IH.
      * apply perm_swap.
Qed.

Lemma order_by_perm (l : list R) : Permutation (order_by leb l) l.
Proof.
  induction l as [| x r IH]; simpl.
  - apply perm_nil.
  - apply Permutation_trans with (x :: order_by leb r).
    + apply insert_by_perm.
    + apply perm_skip. exact IH.
Qed.

Lemma order_by_In (l : list R) (x : R) : In x (order_by leb l) <-> In x l.
Proof.
  split; apply Permutation_in.
  - apply order_by_perm.
  - apply Permutation_sym, order_by_perm.
Qed.

Hypothesis leb_total : forall a b, leb a b = true \/ leb b a = true.
Hypothesis leb_trans :
  forall a b c, leb a b = true -> leb b c = true -> leb a c = true.

Let le (a b : R) : Prop := leb a b = true.

Lemma insert_by_sorted (x : R) (l : list R) :
  StronglySorted le l -> StronglySorted le (insert_by leb x l).
Proof.
  induction 1 as [| y r S IH F]; simpl.
  - constructor; constructor.
  - destruct (leb x y) eqn:E.
    + constructor.
      * constructor; assumption.
      * constructor; [exact E |].
        apply Forall_impl with (P := le y); [| exact F].
        intros z Lz. apply leb_trans with y; assumption.
    + constructor; [exact IH |].
      assert (Lyx : le y x).
      { destruct (leb_total x y) as [C | C]; [congruence | exact C]. }
      apply Forall_forall. intros z Iz.
      apply (Permutation_in _ (insert_by_perm x r)) in Iz.
      destruct Iz as [<- | Iz]; [exact Lyx |].
      rewrite Forall_forall in F. apply F. exact Iz.
Qed.

Lemma order_by_sorted (l : list R) : StronglySorted le (order_by leb l).
Proof.
  induction l as [| x r IH]; simpl.
  - constructor.
  - apply insert_by_sorted. exact IH.
Qed.
End OrderBy.

Lemma StronglySorted_weaken {A} (P Q : A -> A -> Prop) (l : list A) :
  (forall a b, P a b -> Q a b) -> StronglySorted P l -> StronglySorted Q l.
Proof.
  intros W. induction 1 as [| x r S IH F]; constructor.
  - exact IH.
  - apply Forall_impl with (P := P x); [apply W | exact F].
Qed.

Lemma StronglySorted_map {A B} (f : A -> B) (P : B -> B -> Prop) (l : list A) :
  StronglySorted (fun a b => P (f a) (f b)) l -> StronglySorted P (map f l).
Proof.
  induction 1 as [| x r S IH F]; simpl; constructor.
  - exact IH.
  - apply Forall_map. exact F.
Qed.

Lemma StronglySorted_filter {A} (P : A -> A -> Prop) (keep : A -> bool) (l : list A) :
  StronglySorted P l -> StronglySorted P (filter keep l).
Proof.
  induction 1 as [| x r S IH F]; simpl.
  - constructor.
  - destruct (keep x); [| exact IH].
    constructor; [exact IH |].
    apply Forall_forall. intros z Iz. apply filter_In in Iz.
    rewrite Forall_forall in F. apply F. tauto.
Qed.

Lemma map_fst_annotate {A B} (f : A -> B) (l : list A) :
  map fst (map (fun a => (a, f a)) l) = l.
Proof.
  induction l as [| x r IH]; simpl; [reflexivity | rewrite IH; reflexivity].
Qed.

Lemma map_snd_annotate {A B} (f : A -> B) (l : list A) :
  map snd (map (fun a => (a, f a)) l) = map f l.
Proof.
  induction l as [| x r IH]; simpl; [reflexivity | rewrite IH; reflexivity].
Qed.

(** ** The nearby query *)

Section Nearby.
Context `{GIS}.

Lemma nearby_points_In (sp : Point) (d : Q) (db : DB) (r : PointRow) :
  In r (nearby_points sp d db) <->
  In r (points db) /\ SpatialPointData.is_active r = true /\
  st_dwithin (SpatialPointData.location r) sp d = true.
Proof.
  unfold nearby_points. rewrite order_by_In, filter_In, andb_true_iff. tauto.
Qed.

(** The lookup the view builds is refused on the column of the model. *)
Lemma dwithin_refused (distance : Q) :
  dwithin_distance location_field (D distance) = None.
Proof. reflexivity. Qed.

Lemma nearby_numeric (q : QueryDict) (db : DB) (lat lng distance : Q) :
  float_param "lat" q = Some lat ->
  float_param "lng" q = Some lng ->
  distance_param q = Some distance ->
  spatial_points_nearby q db = server_error.
Proof.
  intros Hlat Hlng Hd. unfold spatial_points_nearby.
  rewrite Hlat, Hlng, Hd, dwithin_refused. reflexivity.
Qed.

Lemma nearby_invalid (q : QueryDict) (db : DB) :
  float_param "lat" q = None \/ float_param "lng" q = None \/
  distance_param q = None ->
  spatial_points_nearby q db =
  mkResponse HTTP_400_BAD_REQUEST
    (ErrorMessage "Invalid parameters. lat, lng, and distance must be numbers").
Proof.
  unfold spatial_points_nearby.
  intros [E | [E | E]]; rewrite E;
    repeat match goal with
           | |- context [match ?x with Some _ => _ | None => _ end] => destruct x
           end; reflexivity.
Qed.
End Nearby.

(** C4, as the code has it. A nearby-points query with numeric [lat], [lng]
    and [distance] is answered with a server error, whatever the database
    holds: the view hands a [Distance] object to [dwithin] on the column
    [location], a geometry column in degrees, the lookup is refused, and the
    error is raised after the [try] of the view. When [lat] or [lng] is
    missing, or [lat], [lng] or [distance] is not numeric, the view answers
    with the invalid-parameter error. *)
Theorem nearby_numeric_query_fails `{GIS} (q : QueryDict) (db : DB) :
  (forall lat lng distance,
      float_param "lat" q = Some lat ->
      float_param "lng" q = Some lng ->
      distance_param q = Some distance ->
      spatial_points_nearby q db = server_error /\
      body_rows (body (spatial_points_nearby q db)) = []) /\
  ((qget "lat" q = None \/ qget "lng" q = None \/
    (exists s, qget "lat" q = Some s /\ py_float s = None) \/
    (exists s, qget "lng" q = Some s /\ py_float s = None) \/
    (exists s, qget "distance" q = Some s /\ py_float s = None)) ->
   spatial_points_nearby q db =
   mkResponse HTTP_400_BAD_REQUEST
     (ErrorMessage "Invalid parameters. lat, lng, and distance must be numbers")).
Proof.
  split.
  - intros lat lng distance Hlat Hlng Hd.
    rewrite (nearby_numeric q db Hlat Hlng Hd). split; reflexivity.
  - intro Bad. apply nearby_invalid. unfold float_param, distance_param.
    destruct Bad as [E | [E | [(s & E & F) | [(s & E & F) | (s & E & F)]]]];
      rewrite E; auto.
Qed.

(** The failing input of C4: the sample database holds an active point 222.64
    metres from the query point, and the query within 1000 metres is
    answered with a server error. *)
Lemma nearby_numeric_query_fails_witness :
  (exists r,
      In r (points sample_db) /\ SpatialPointData.is_active r = true /\
      distance_m (mkPoint (-73) 40 WGS84) r <= 1000) /\
  spatial_points_nearby near_query sample_db = server_error.
Proof.
  split.
  - exists (nth 2 (points sample_db) (SpatialPointData.mk 0 "" None
                                       (mkPoint 0 0 0) [] 0 0 false false)).
    split; [right; right; left; reflexivity |].
    split; [reflexivity |]. apply Qle_bool_iff. reflexivity.
  - exact (proj1 (proj1 (@nearby_numeric_query_fails planar near_query sample_db)
                    40 (-73) 1000 eq_refl eq_refl eq_refl)).
Defined.



(** C10, as the code has it. A nearby-points query with numeric [lat] and
    [lng] and no [distance] parameter passes the parameter check with the
    distance 1000, and is then answered with a server error like any numeric
    query; without [lat] or without [lng] it is answered with the
    invalid-parameter error. *)
Theorem nearby_default_radius_fails `{GIS} (q : QueryDict) (db : DB) :
  (forall lat lng,
      float_param "lat" q = Some lat ->
      float_param "lng" q = Some lng ->
      qget "distance" q = None ->
      distance_param q = Some 1000 /\
      spatial_points_nearby q db = server_error) /\
  (qget "lat" q = None \/ qget "lng" q = None ->
   spatial_points_nearby q db =
   mkResponse HTTP_400_BAD_REQUEST
     (ErrorMessage "Invalid parameters. lat, lng, and distance must be numbers")).
Proof.
  split.
  - intros lat lng Hlat Hlng Hd.
    assert (Hr : distance_param q = Some 1000)
      by (unfold distance_param; rewrite Hd; reflexivity).
    split; [exact Hr | apply (nearby_numeric q db Hlat Hlng Hr)].
  - intro Missing. apply nearby_invalid. unfold float_param.
    destruct Missing as [E | E]; rewrite E; auto.
Qed.

Lemma nearby_default_radius_fails_witness :
  spatial_points_nearby [("lat", "40"); ("lng", "-73")]%string sample_db
  = server_error /\
  spatial_points_nearby [("lng", "-73")]%string sample_db =
  mkResponse HTTP_400_BAD_REQUEST
    (ErrorMessage "Invalid parameters. lat, lng, and distance must be numbers").
Proof.
  split.
  - exact (proj2 (proj1 (@nearby_default_radius_fails planar
                           [("lat", "40"); ("lng", "-73")]%string sample_db)
                    40 (-73) eq_refl eq_refl eq_refl)).
  - exact (proj2 (@nearby_default_radius_fails planar [("lng", "-73")]%string sample_db)
             (or_introl eq_refl)).
Defined.

(** ** The summary *)






(** ** Validation *)

Lemma validate_location_inr (value : GEOSGeometry) (p : Point) :
  validate_location value = inr p <-> value = GPoint p /\ point_in_range p.
Proof.
  unfold validate_location, point_in_range.
  destruct value as [p0 | c s | g | ps];
    try (split; [discriminate | intros [E _]; discriminate]).
  destruct (Qleb (-90) (pt_y p0)) eqn:A, (Qleb (pt_y p0) 90) eqn:B; simpl;
    try (split; [discriminate | intros [E R]; injection E as ->;
                 destruct R as (R1 & R2 & _); apply Qleb_le in R1, R2; congruence]).
  destruct (Qleb (-180) (pt_x p0)) eqn:C, (Qleb (pt_x p0) 180) eqn:D; simpl;
    try (split; [discriminate | intros [E R]; injection E as ->;
                 destruct R as (_ & _ & R3 & R4); apply Qleb_le in R3, R4; congruence]).
  apply Qleb_le in A, B, C, D. split.
  - intro E. injection E as ->. auto.
  - intros [E _]. injection E as ->. reflexivity.
Qed.

Lemma validate_geometry_inr `{GIS} (value : GEOSGeometry) (g : Polygon) :
  validate_geometry value = inr g <-> value = GPolygon g /\ polygon_acceptable g.
Proof.
  unfold validate_geometry, polygon_acceptable.
  destruct value as [p0 | c s | g0 | ps];
    try (split; [discriminate | intros [E _]; discriminate]).
  destruct (geos_valid g0) eqn:V; simpl.
  - destruct (Qltb (geom_area g0) MIN_AREA) eqn:A.
    + split; [discriminate |]. intros [E [_ L]]. injection E as ->.
      apply Qltb_lt in A. exfalso. apply (Qlt_not_le _ _ A L).
    + apply Qltb_false in A. split.
      * intro E. injection E as ->. auto.
      * intros [E _]. injection E as ->. reflexivity.
  - split; [discriminate |]. intros [E [V' _]]. injection E as ->. congruence.
Qed.

(** What a successful validation says about the payload and its result. *)
Lemma run_validation_inr {G} (field : string) (hook : GEOSGeometry -> string + G)
    (with_area partial : bool) (d : Payload) (v : Validated G) :
  run_validation field hook with_area partial d = inr v ->
  v_name v = option_map strip (in_name d) /\
  v_description v = option_map (option_map strip) (in_description d) /\
  v_properties v = in_properties d /\
  v_is_active v = in_is_active d /\
  match in_geometry d with
  | None => partial = true /\ v_geometry v = None
  | Some Undecodable => False
  | Some (Decoded g) => exists x, hook g = inr x /\ v_geometry v = Some x
  end.
Proof.
  unfold run_validation, check_geo.
  destruct (check_area with_area (in_area d)) as [area_errors area].
  destruct (in_geometry d) as [[| g] |].
  - destruct (check_name partial (in_name d)); simpl; discriminate.
  - destruct (hook g) as [msg | x].
    + destruct (check_name partial (in_name d)); simpl; discriminate.
    + destruct (check_name partial (in_name d)); [| discriminate].
      destruct area_errors; [| discriminate].
      intro E. injection E as <-. simpl. repeat split; eauto.
  - destruct partial.
    + destruct (check_name true (in_name d)); [| discriminate].
      destruct area_errors; [| discriminate].
      intro E. injection E as <-. simpl. repeat split; eauto.
    + destruct (check_name false (in_name d)); simpl; discriminate.
Qed.

(** A complete (non-partial) validation always yields a geometry. *)
Lemma full_validation_has_geometry {G} (field : string)
    (hook : GEOSGeometry -> string + G) (with_area : bool) (d : Payload)
    (v : Validated G) :
  run_validation field hook with_area false d = inr v ->
  exists g x, in_geometry d = Some (Decoded g) /\ hook g = inr x /\
              v_geometry v = Some x.
Proof.
  intro E. apply run_validation_inr in E. destruct E as (_ & _ & _ & _ & E).
  destruct (in_geometry d) as [[| g] |].
  - contradiction.
  - destruct E as (x & Hx & Vx). eauto.
  - destruct E as [E _]. discriminate.
Qed.

(** An error of the geometry field fails the validation and is reported. *)
Lemma run_validation_geo_error {G} (field : string)
    (hook : GEOSGeometry -> string + G) (with_area partial : bool) (d : Payload)
    (err : string * string) (rest : Errors) (geo : option G) :
  check_geo field hook partial (in_geometry d) = (err :: rest, geo) ->
  exists e, run_validation field hook with_area partial d = inl e /\ In err e.
Proof.
  intro C. unfold run_validation. rewrite C.
  destruct (check_area with_area (in_area d)) as [area_errors area].
  destruct (check_name partial (in_name d) ++ (err :: rest) ++ area_errors)%list
    as [| x l] eqn:E.
  - apply app_eq_nil in E. destruct E as [_ E]. discriminate.
  - eexists. split; [reflexivity |]. rewrite <- E.
    apply in_or_app. right. left. reflexivity.
Qed.

(** A payload without geometry passes a partial validation of the point
    serializer as soon as its name passes. *)
Lemma partial_point_validation_without_geometry (d : Payload) :
  in_geometry d = None -> check_name true (in_name d) = [] ->
  exists v, SpatialPointDataSerializer true d = inr v /\ v_geometry v = None.
Proof.
  intros G N. unfold SpatialPointDataSerializer, run_validation, check_geo, check_area.
  rewrite G, N. simpl. eexists. split; reflexivity.
Qed.

(** ** Creating rows *)

Lemma create_point_spec (v : Validated Point) (loc : Point) (db : DB) :
  v_geometry v = Some loc ->
  exists row db',
    create_point v db = Some (row, db') /\
    points db' = points db ++ [row] /\
    polygons db' = polygons db /\
    point_row_of v row.
Proof.
  intro E. unfold create_point. rewrite E. simpl.
  do 2 eexists. split; [reflexivity |].
  repeat split; simpl; auto.
Qed.


(** ** Bulk ingestion *)


Section Bulk.
Context {G R : Type}.
Variable serializer : Payload -> Errors + Validated G.
Variable create : Validated G -> DB -> option (R * DB).
Variable table : DB -> list R.
Variable row_of : Validated G -> R -> Prop.

(** Creating from validated data succeeds and appends one row. *)
Hypothesis create_appends :
  forall item v db,
    serializer item = inr v ->
    exists row db',
      create v db = Some (row, db') /\ table db' = table db ++ [row] /\ row_of v row.







Variable key missing not_array : string.




End Bulk.

Lemma create_point_appends (item : Payload) (v : Validated Point) (db : DB) :
  SpatialPointDataSerializer false item = inr v ->
  exists row db',
    create_point v db = Some (row, db') /\
    points db' = points db ++ [row] /\ point_row_of v row.
Proof.
  intro E. apply full_validation_has_geometry in E.
  destruct E as (g & loc & _ & _ & E).
  destruct (@create_point_spec v loc db E) as (row & db' & C & P & _ & Rv). eauto.
Qed.






(** ** Listing: filters, order and pages *)

Lemma prefix_spec (sub s : string) :
  prefix sub s = true <-> exists post, s = (sub ++ post)%string.
Proof.
  revert s. induction sub as [| c r IH]; intro s; simpl.
  - split; [intros _; exists s; reflexivity | intros _; destruct s; reflexivity].
  - destruct s as [| c' s']; simpl.
    + split; [discriminate | intros [post E]; discriminate].
    + destruct (ascii_dec c c') as [-> | N].
      * rewrite IH. split; intros [post E]; exists post.
        -- rewrite E. reflexivity.
        -- injection E as E. exact E.
      * split; [discriminate |]. intros [post E]. injection E as E _. congruence.
Qed.

Lemma contains_str_unfold (sub s : string) :
  contains_str sub s =
  if prefix sub s then true
  else match s with
       | EmptyString => false
       | String _ r => contains_str sub r
       end.
Proof. destruct s; reflexivity. Qed.

Lemma contains_str_spec (sub s : string) :
  contains_str sub s = true <->
  exists pre post, s = (pre ++ sub ++ post)%string.
Proof.
  induction s as [| c s' IH]; rewrite contains_str_unfold.
  - destruct (prefix sub EmptyString) eqn:P.
    + apply prefix_spec in P. destruct P as [post E].
      split; [intros _ | reflexivity]. exists EmptyString, post. exact E.
    + split; [discriminate |]. intros (pre & post & E).
      destruct pre; [| discriminate].
      assert (prefix sub EmptyString = true)
        by (apply prefix_spec; exists post; exact E).
      congruence.
  - destruct (prefix sub (String c s')) eqn:P.
    + apply prefix_spec in P. destruct P as [post E].
      split; [intros _ | reflexivity]. exists EmptyString, post. exact E.
    + rewrite IH. split.
      * intros (pre & post & E). exists (String c pre), post. rewrite E. reflexivity.
      * intros (pre & post & E). destruct pre as [| c0 pre].
        -- assert (prefix sub (String c s') = true)
             by (apply prefix_spec; exists post; exact E).
           congruence.
        -- injection E as _ E. exists pre, post. exact E.
Qed.

Lemma icontains_spec (name sub : string) :
  icontains name sub = true <->
  exists pre post, lower name = (pre ++ lower sub ++ post)%string.
Proof. apply contains_str_spec. Qed.

Lemma icontains_empty (name : string) : icontains name "" = true.
Proof.
  apply icontains_spec. exists EmptyString, (lower name). reflexivity.
Qed.

Lemma eqb_eq_iff (a b : bool) : Bool.eqb a b = true <-> a = b.
Proof. destruct a, b; simpl; split; congruence. Qed.

Lemma filter_common_In {R} (name_of : R -> string) (active_of : R -> bool)
    (q : QueryDict) (queryset : list R) (r : R) :
  In r (filter_common name_of active_of q queryset) <->
  In r queryset /\
  (forall n, qget "name" q = Some n -> icontains (name_of r) n = true) /\
  (forall v, qget "is_active" q = Some v -> active_of r = parse_flag v).
Proof.
  unfold filter_common.
  destruct (qget "name" q) as [n |], (qget "is_active" q) as [v |];
    try (destruct n as [| c n']; simpl);
    repeat rewrite filter_In; repeat rewrite eqb_eq_iff.
  - split.
    + intros [I A]. repeat split; auto.
      intros n E. injection E as <-. apply icontains_empty.
      intros v' E. injection E as <-. exact A.
    + intros (I & _ & A). auto.
  - split.
    + intros [[I N] A]. repeat split; auto.
      intros n E. injection E as <-. exact N.
      intros v' E. injection E as <-. exact A.
    + intros (I & N & A). auto.
  - split.
    + intros I. repeat split; auto; try discriminate.
      intros n E. injection E as <-. apply icontains_empty.
    + tauto.
  - split.
    + intros [I N]. repeat split; auto; try discriminate.
      intros n E. injection E as <-. exact N.
    + intros (I & N & _). auto.
  - split.
    + intros [I A]. repeat split; auto; try discriminate.
      intros v' E. injection E as <-. exact A.
    + intros (I & _ & A). auto.
  - split; [intro I; repeat split; auto; discriminate | tauto].
Qed.

Lemma filter_common_sorted {R} (P : R -> R -> Prop) (name_of : R -> string)
    (active_of : R -> bool) (q : QueryDict) (queryset : list R) :
  StronglySorted P queryset ->
  StronglySorted P (filter_common name_of active_of q queryset).
Proof.
  intro S. unfold filter_common.
  destruct (qget "is_active" q); [apply StronglySorted_filter |];
    destruct (qget "name" q) as [n |]; try exact S;
    destruct (truthy (Some n)); try exact S; apply StronglySorted_filter; exact S.
Qed.

Section Bounds.
Context `{GIS}.

Lemma filter_bound_In (lookup : Q -> PolygonRow -> bool) (bound : option string)
    (queryset : list PolygonRow) (r : PolygonRow) :
  In r (filter_bound lookup bound queryset) <->
  In r queryset /\
  (forall s m, bound = Some s -> s <> ""%string -> py_float s = Some m ->
               lookup m r = true).
Proof.
  unfold filter_bound. destruct bound as [s |].
  - destruct s as [| c s']; simpl.
    + split; [| tauto]. intro I. split; [exact I |].
      intros s m E N. injection E as <-. contradiction.
    + destruct (py_float (String c s')) as [m |] eqn:F.
      * rewrite filter_In. split.
        -- intros [I L]. split; [exact I |].
           intros s m' E _ F'. injection E as <-. congruence.
        -- intros [I L]. split; [exact I |].
           apply (L (String c s') m); [reflexivity | discriminate | exact F].
      * split; [| tauto]. intro I. split; [exact I |].
        intros s m E _ F'. injection E as <-. congruence.
  - split; [| tauto]. intro I. split; [exact I | discriminate].
Qed.

Lemma filter_bound_sorted (P : PolygonRow -> PolygonRow -> Prop)
    (lookup : Q -> PolygonRow -> bool) (bound : option string)
    (queryset : list PolygonRow) :
  StronglySorted P queryset ->
  StronglySorted P (filter_bound lookup bound queryset).
Proof.
  intro S. unfold filter_bound.
  destruct bound as [s |]; [| exact S].
  destruct (truthy (Some s)); [| exact S].
  destruct (py_float s); [apply StronglySorted_filter |]; exact S.
Qed.

Lemma get_page_size_bounds (q : QueryDict) : (1 <= get_page_size q <= 100)%Z.
Proof.
  unfold get_page_size, StandardResultsSetPagination.page_size,
    StandardResultsSetPagination.max_page_size.
  destruct (qget _ q) as [s |]; [| lia].
  destruct (py_int s) as [n |]; [| lia].
  destruct (n <=? 0)%Z eqn:E; [lia |].
  apply Z.leb_gt in E. lia.
Qed.

Lemma paginate_queryset_slice {R} (queryset : list R) (q : QueryDict)
    (page : list R) :
  paginate_queryset queryset q = Some page ->
  (Z.of_nat (List.length page) <= get_page_size q)%Z /\
  exists before after, queryset = before ++ page ++ after.
Proof.
  unfold paginate_queryset.
  destruct (get_page_number q _) as [number |]; [| discriminate].
  intro E. injection E as <-.
  pose proof (get_page_size_bounds q) as B.
  split.
  - pose proof (firstn_le_length (Z.to_nat (get_page_size q))
                  (skipn (Z.to_nat ((number - 1) * get_page_size q)) queryset)).
    lia.
  - exists (firstn (Z.to_nat ((number - 1) * get_page_size q)) queryset),
      (skipn (Z.to_nat (get_page_size q))
         (skipn (Z.to_nat ((number - 1) * get_page_size q)) queryset)).
    rewrite firstn_skipn, firstn_skipn. reflexivity.
Qed.
End Bounds.

Lemma newest_first_point_sorted (l : list PointRow) :
  StronglySorted
    (fun a b => (SpatialPointData.created_at b <= SpatialPointData.created_at a)%Z)
    (order_by newest_first_point l).
Proof.
  apply StronglySorted_weaken with (P := fun a b => newest_first_point a b = true).
  - intros a b. unfold newest_first_point. apply Z.leb_le.
  - apply order_by_sorted; unfold newest_first_point; intros; lia.
Qed.

Lemma newest_first_polygon_sorted (l : list PolygonRow) :
  StronglySorted
    (fun a b => (SpatialPolygonData.created_at b <= SpatialPolygonData.created_at a)%Z)
    (order_by newest_first_polygon l).
Proof.
  apply StronglySorted_weaken with (P := fun a b => newest_first_polygon a b = true).
  - intros a b. unfold newest_first_polygon. apply Z.leb_le.
  - apply order_by_sorted; unfold newest_first_polygon; intros; lia.
Qed.

Lemma nat_of_lower_ascii (c : ascii) :
  nat_of_ascii (lower_ascii c) =
  if ((65 <=? nat_of_ascii c) && (nat_of_ascii c <=? 90))%nat
  then (nat_of_ascii c + 32)%nat else nat_of_ascii c.
Proof.
  unfold lower_ascii.
  destruct ((65 <=? nat_of_ascii c) && (nat_of_ascii c <=? 90))%nat eqn:U;
    [| reflexivity].
  apply andb_true_iff in U. destruct U as [_ U]. apply Nat.leb_le in U.
  apply nat_ascii_embedding. lia.
Qed.

Lemma nat_of_ascii_inj (a b : ascii) : nat_of_ascii a = nat_of_ascii b -> a = b.
Proof.
  intro E. rewrite <- (ascii_nat_embedding a), <- (ascii_nat_embedding b), E.
  reflexivity.
Qed.

Lemma lower_ascii_same_letter (a b : ascii) :
  lower_ascii a = lower_ascii b <-> same_letter a b.
Proof.
  unfold same_letter. split.
  - intro E. apply (f_equal nat_of_ascii) in E.
    rewrite !nat_of_lower_ascii in E.
    destruct ((65 <=? nat_of_ascii a) && (nat_of_ascii a <=? 90))%nat eqn:Ua;
      destruct ((65 <=? nat_of_ascii b) && (nat_of_ascii b <=? 90))%nat eqn:Ub.
    + left. apply nat_of_ascii_inj. lia.
    + right. left. apply andb_true_iff in Ua. destruct Ua as [L U].
      apply Nat.leb_le in L. apply Nat.leb_le in U. lia.
    + right. right. apply andb_true_iff in Ub. destruct Ub as [L U].
      apply Nat.leb_le in L. apply Nat.leb_le in U. lia.
    + left. apply nat_of_ascii_inj. exact E.
  - intros [-> | [[[L U] E] | [[L U] E]]]; [reflexivity | |];
      apply nat_of_ascii_inj; rewrite !nat_of_lower_ascii.
    + replace ((65 <=? nat_of_ascii a) && (nat_of_ascii a <=? 90))%nat with true
        by (symmetry; apply andb_true_iff; split; apply Nat.leb_le; lia).
      replace ((65 <=? nat_of_ascii b) && (nat_of_ascii b <=? 90))%nat with false
        by (symmetry; apply andb_false_iff; right; apply Nat.leb_gt; lia).
      lia.
    + replace ((65 <=? nat_of_ascii b) && (nat_of_ascii b <=? 90))%nat with true
        by (symmetry; apply andb_true_iff; split; apply Nat.leb_le; lia).
      replace ((65 <=? nat_of_ascii a) && (nat_of_ascii a <=? 90))%nat with false
        by (symmetry; apply andb_false_iff; right; apply Nat.leb_gt; lia).
      lia.
Qed.

Lemma lower_same_text (s t : string) : lower s = lower t <-> same_text s t.
Proof.
  split.
  - revert t. induction s as [| a s IH]; intros [| b t] E; simpl in E;
      try discriminate.
    + constructor.
    + injection E as Ea Es. constructor.
      * apply lower_ascii_same_letter. exact Ea.
      * apply IH. exact Es.
  - induction 1 as [| a b s t L _ IH]; [reflexivity |]. simpl.
    apply lower_ascii_same_letter in L. rewrite L, IH. reflexivity.
Qed.

Lemma lower_app (s t : string) : lower (s ++ t) = (lower s ++ lower t)%string.
Proof. induction s as [| c s IH]; simpl; [| rewrite IH]; reflexivity. Qed.

Lemma lower_app_inv (s a b : string) :
  lower s = (a ++ b)%string ->
  exists s1 s2, s = (s1 ++ s2)%string /\ lower s1 = a /\ lower s2 = b.
Proof.
  revert s. induction a as [| c a IH]; intros s E.
  - exists EmptyString, s. auto.
  - destruct s as [| c' s]; [discriminate |]. simpl in E. injection E as Ec Es.
    destruct (IH s Es) as (s1 & s2 & -> & E1 & E2).
    exists (String c' s1), s2. simpl. rewrite Ec, E1. auto.
Qed.

Lemma icontains_ignores_case (name sub : string) :
  icontains name sub = true <-> contains_ignoring_case name sub.
Proof.
  rewrite icontains_spec. unfold contains_ignoring_case. split.
  - intros (pre & post & E).
    destruct (lower_app_inv name pre _ E) as (s1 & s23 & -> & E1 & E23).
    destruct (lower_app_inv s23 (lower sub) post E23) as (s2 & s3 & -> & E2 & E3).
    exists s1, s2, s3. split; [reflexivity |]. apply lower_same_text. exact E2.
  - intros (pre & mid & post & -> & T). apply lower_same_text in T.
    exists (lower pre), (lower post). rewrite !lower_app, T. reflexivity.
Qed.

Lemma parse_flag_same_text (v : string) :
  parse_flag v = true <-> same_text v "true".
Proof.
  unfold parse_flag. rewrite String.eqb_eq.
  change "true"%string with (lower "true") at 1. apply lower_same_text.
Qed.

Lemma num_pages_spec (count : nat) (per_page : Z) :
  (1 <= per_page)%Z ->
  (1 <= num_pages count per_page)%Z /\
  ((num_pages count per_page - 1) * per_page < Z.max 1 (Z.of_nat count)
   <= num_pages count per_page * per_page)%Z.
Proof.
  intro P. unfold num_pages.
  set (hits := Z.max 1 (Z.of_nat count)).
  assert (Hh : (1 <= hits)%Z) by (unfold hits; lia).
  pose proof (Z.div_mod (hits + per_page - 1) per_page ltac:(lia)) as D.
  pose proof (Z.mod_pos_bound (hits + per_page - 1) per_page ltac:(lia)) as M.
  set (n := ((hits + per_page - 1) / per_page)%Z) in *.
  split; [| split]; nia.
Qed.

Section Pages.
Context `{GIS}.

Lemma paginated_response_first_page {R} (queryset : list R) (q : QueryDict) :
  (qget "page" q = None \/ qget "page" q = Some ""%string) ->
  paginated_response queryset q
  = mkResponse HTTP_200_OK
      (Page (List.length queryset)
         (firstn (Z.to_nat (get_page_size q)) queryset)).
Proof.
  intro E. unfold paginated_response, paginate_queryset, get_page_number.
  destruct E as [-> | ->]; reflexivity.
Qed.

Lemma paginated_response_page {R} (queryset : list R) (q : QueryDict)
    (s : string) (n : Z) :
  qget "page" q = Some s -> s <> ""%string -> s <> "last"%string ->
  py_int s = Some n ->
  (1 <= n <= num_pages (List.length queryset) (get_page_size q))%Z ->
  paginated_response queryset q
  = mkResponse HTTP_200_OK
      (Page (List.length queryset)
         (firstn (Z.to_nat (get_page_size q))
            (skipn (Z.to_nat ((n - 1) * get_page_size q)) queryset))).
Proof.
  intros E N1 N2 P B. unfold paginated_response, paginate_queryset, get_page_number.
  rewrite E. destruct s as [| c s']; [contradiction |]. simpl truthy. simpl negb.
  cbv iota. apply String.eqb_neq in N2. rewrite N2, P.
  replace ((n <? 1) || (_ <? n))%Z with false; [reflexivity |].
  symmetry. apply orb_false_iff. split; apply Z.ltb_ge; lia.
Qed.

Lemma paginated_response_last {R} (queryset : list R) (q : QueryDict) :
  qget "page" q = Some "last"%string ->
  paginated_response queryset q
  = mkResponse HTTP_200_OK
      (Page (List.length queryset)
         (skipn (Z.to_nat ((num_pages (List.length queryset) (get_page_size q) - 1)
                           * get_page_size q)) queryset)).
Proof.
  intros E. unfold paginated_response, paginate_queryset, get_page_number.
  rewrite E. simpl. f_equal. f_equal.
  apply firstn_all2. rewrite length_skipn.
  pose proof (get_page_size_bounds q) as B.
  destruct (@num_pages_spec (List.length queryset) (get_page_size q) (proj1 B))
    as (N1 & N2 & N3).
  set (pages := num_pages (List.length queryset) (get_page_size q)) in *.
  set (size := get_page_size q) in *.
  replace ((pages - 1) * size)%Z with (pages * size - size)%Z by ring.
  set (top := (pages * size)%Z) in *.
  lia.
Qed.

Lemma paginated_response_invalid {R} (queryset : list R) (q : QueryDict)
    (s : string) :
  qget "page" q = Some s -> s <> ""%string -> s <> "last"%string ->
  (py_int s = None \/
   exists n, py_int s = Some n /\
             (n < 1 \/ num_pages (List.length queryset) (get_page_size q) < n)%Z) ->
  paginated_response queryset q
  = mkResponse HTTP_404_NOT_FOUND (ErrorMessage "Invalid page.").
Proof.
  intros E N1 N2 P. unfold paginated_response, paginate_queryset, get_page_number.
  rewrite E. destruct s as [| c s']; [contradiction |]. simpl truthy. simpl negb.
  cbv iota. apply String.eqb_neq in N2. rewrite N2.
  destruct P as [-> | (n & -> & B)]; [reflexivity |].
  replace ((n <? 1) || (_ <? n))%Z with true; [reflexivity |].
  symmetry. apply orb_true_iff. destruct B; [left | right]; apply Z.ltb_lt; lia.
Qed.
End Pages.

(** C9. In a list query, the [name] filter keeps exactly the entities whose
    name contains the given text, case ignored; the [is_active] filter keeps
    exactly those whose flag is the given boolean, read as true from the text
    "true" in any case; for polygons [min_area] and [max_area] bound [area]
    inclusively, and a bound that is not a number is ignored and does not
    fail the request; the rows come newest first; a page holds 20 rows unless
    the request asks otherwise, and never more than 100; the answer carries
    the number of rows of the whole result and the rows of the requested
    page, the first page when none is requested, and is 404 for a page that
    does not exist. *)
Theorem list_filters_order_and_pages `{GIS} (q : QueryDict) (db : DB) :
  (forall data,
      fst (spatial_points_list_create GET q data db)
      = paginated_response (points_queryset q db) q /\
      fst (spatial_polygons_list_create GET q data db)
      = paginated_response (polygons_queryset q db) q) /\
  (forall r, In r (points_queryset q db) <->
             In r (points db) /\
             (forall n, qget "name" q = Some n ->
                        contains_ignoring_case (SpatialPointData.name r) n) /\
             (forall v, qget "is_active" q = Some v ->
                        SpatialPointData.is_active r = parse_flag v)) /\
  (forall r, In r (polygons_queryset q db) <->
             In r (polygons db) /\
             (forall n, qget "name" q = Some n ->
                        contains_ignoring_case (SpatialPolygonData.name r) n) /\
             (forall v, qget "is_active" q = Some v ->
                        SpatialPolygonData.is_active r = parse_flag v) /\
             (forall s m, qget "min_area" q = Some s -> s <> ""%string ->
                          py_float s = Some m ->
                          exists a, SpatialPolygonData.area r = Some a /\ m <= a) /\
             (forall s m, qget "max_area" q = Some s -> s <> ""%string ->
                          py_float s = Some m ->
                          exists a, SpatialPolygonData.area r = Some a /\ a <= m)) /\
  (forall name n, (icontains name n = true <-> contains_ignoring_case name n) /\
                  (icontains name n = true <->
                   exists pre post, lower name = (pre ++ lower n ++ post)%string)) /\
  (parse_flag "true" = true /\ parse_flag "false" = false /\
   forall v, parse_flag v = true <-> same_text v "true") /\
  StronglySorted
    (fun a b => (SpatialPointData.created_at b <= SpatialPointData.created_at a)%Z)
    (points_queryset q db) /\
  StronglySorted
    (fun a b => (SpatialPolygonData.created_at b <= SpatialPolygonData.created_at a)%Z)
    (polygons_queryset q db) /\
  (qget "page_size" q = None -> get_page_size q = 20%Z) /\
  (forall s n, qget "page_size" q = Some s -> py_int s = Some n -> (0 < n)%Z ->
               get_page_size q = Z.min n 100) /\
  (1 <= get_page_size q <= 100)%Z /\
  (forall (R : Type) (queryset : list R),
      (qget "page" q = None ->
       exists page,
         paginated_response queryset q
         = mkResponse HTTP_200_OK (Page (List.length queryset) page)) /\
      (forall count page,
          paginated_response queryset q = mkResponse HTTP_200_OK (Page count page) ->
          count = List.length queryset /\
          (Z.of_nat (List.length page) <= get_page_size q)%Z /\
          exists before after, queryset = before ++ page ++ after) /\
      (qget "page" q = None \/ qget "page" q = Some ""%string ->
       paginated_response queryset q
       = mkResponse HTTP_200_OK
           (Page (List.length queryset)
              (firstn (Z.to_nat (get_page_size q)) queryset))) /\
      (forall s n,
          qget "page" q = Some s -> s <> ""%string -> s <> "last"%string ->
          py_int s = Some n ->
          (1 <= n <= num_pages (List.length queryset) (get_page_size q))%Z ->
          paginated_response queryset q
          = mkResponse HTTP_200_OK
              (Page (List.length queryset)
                 (firstn (Z.to_nat (get_page_size q))
                    (skipn (Z.to_nat ((n - 1) * get_page_size q)) queryset)))) /\
      (qget "page" q = Some "last"%string ->
       paginated_response queryset q
       = mkResponse HTTP_200_OK
           (Page (List.length queryset)
              (skipn (Z.to_nat
                        ((num_pages (List.length queryset) (get_page_size q) - 1)
                         * get_page_size q)) queryset))) /\
      (forall s,
          qget "page" q = Some s -> s <> ""%string -> s <> "last"%string ->
          (py_int s = None \/
           exists n, py_int s = Some n /\
                     (n < 1 \/
                      num_pages (List.length queryset) (get_page_size q) < n)%Z) ->
          paginated_response queryset q
          = mkResponse HTTP_404_NOT_FOUND (ErrorMessage "Invalid page.")) /\
      (1 <= num_pages (List.length queryset) (get_page_size q))%Z /\
      ((num_pages (List.length queryset) (get_page_size q) - 1) * get_page_size q
       < Z.max 1 (Z.of_nat (List.length queryset))
       <= num_pages (List.length queryset) (get_page_size q) * get_page_size q)%Z).
Proof.
  split; [intro data; split; reflexivity |].
  split.
  { intro r. unfold points_queryset. rewrite filter_common_In, order_by_In.
    split.
    - intros (I & N & A). repeat split; auto.
      intros n E. apply icontains_ignores_case. auto.
    - intros (I & N & A). repeat split; auto.
      intros n E. apply icontains_ignores_case. auto. }
  split.
  { intro r. unfold polygons_queryset.
    rewrite !filter_bound_In, filter_common_In, order_by_In.
    unfold area_gte, area_lte. split.
    - intros (((I & N & A) & Lo) & Hi). repeat split; auto.
      + intros n E. apply icontains_ignores_case. auto.
      + intros s m E NE F. specialize (Lo s m E NE F).
        destruct (SpatialPolygonData.area r) as [a |]; [| discriminate].
        exists a. split; [reflexivity | apply Qleb_le; exact Lo].
      + intros s m E NE F. specialize (Hi s m E NE F).
        destruct (SpatialPolygonData.area r) as [a |]; [| discriminate].
        exists a. split; [reflexivity | apply Qleb_le; exact Hi].
    - intros (I & N & A & Lo & Hi). repeat split; auto.
      + intros n E. apply icontains_ignores_case. auto.
      + intros s m E NE F. destruct (Lo s m E NE F) as (a & -> & L).
        apply Qleb_le. exact L.
      + intros s m E NE F. destruct (Hi s m E NE F) as (a & -> & L).
        apply Qleb_le. exact L. }
  split.
  { intros name n. split; [apply icontains_ignores_case | apply icontains_spec]. }
  split.
  { split; [reflexivity |]. split; [reflexivity |]. apply parse_flag_same_text. }
  split.
  { unfold points_queryset. apply filter_common_sorted, newest_first_point_sorted. }
  split.
  { unfold polygons_queryset.
    do 2 apply filter_bound_sorted.
    apply filter_common_sorted, newest_first_polygon_sorted. }
  split.
  { intro E. unfold get_page_size, StandardResultsSetPagination.page_size_query_param.
    rewrite E. reflexivity. }
  split.
  { intros s n E P L.
    unfold get_page_size, StandardResultsSetPagination.page_size_query_param.
    rewrite E, P. destruct (n <=? 0)%Z eqn:C; [apply Z.leb_le in C; lia |].
    reflexivity. }
  split; [apply get_page_size_bounds |].
  intros R queryset. split.
  { intro E. unfold paginated_response, paginate_queryset, get_page_number.
    rewrite E. simpl. eexists. reflexivity. }
  split.
  { intros count page. unfold paginated_response.
    destruct (paginate_queryset queryset q) as [page' |] eqn:P; [| discriminate].
    intro E. injection E as <- <-.
    split; [reflexivity |]. apply paginate_queryset_slice. exact P. }
  split; [apply paginated_response_first_page |].
  split; [apply paginated_response_page |].
  split; [apply paginated_response_last |].
  split; [apply paginated_response_invalid |].
  apply num_pages_spec. apply get_page_size_bounds.
Qed.

(** The sample database: the points whose name contains "EPO", case ignored;
    the second page of its points, two to a page; and a page past the end. *)
Lemma list_filters_order_and_pages_witness :
  (exists row,
      fst (spatial_points_list_create GET [("name", "EPO")]%string no_payload
             sample_db)
      = mkResponse HTTP_200_OK (Page 1 [row]) /\
      SpatialPointData.name row = "depot"%string /\
      contains_ignoring_case "depot" "EPO") /\
  (exists row,
      fst (spatial_points_list_create GET
             [("page_size", "2"); ("page", "2")]%string no_payload sample_db)
      = mkResponse HTTP_200_OK (Page 3 [row]) /\
      SpatialPointData.name row = "kiosk"%string) /\
  fst (spatial_points_list_create GET
         [("page_size", "2"); ("page", "3")]%string no_payload sample_db)
  = mkResponse HTTP_404_NOT_FOUND (ErrorMessage "Invalid page.") /\
  get_page_size [("page_size", "500")]%string = 100%Z.
Proof.
  split; [| split; [| split]].
  - pose proof (@list_filters_order_and_pages planar [("name", "EPO")]%string
                  sample_db) as T.
    destruct T as (V & M & _ & _ & _ & _ & _ & _ & _ & _ & P).
    destruct (points_queryset [("name", "EPO")]%string sample_db)
      as [| row [| ? ?]] eqn:Q; try (vm_compute in Q; discriminate).
    exists row. split; [| split].
    + rewrite (proj1 (V no_payload)).
      rewrite (proj1 (proj2 (proj2 (P PointRow [row]))) (or_introl eq_refl)).
      reflexivity.
    + vm_compute in Q. injection Q as <-. reflexivity.
    + assert (N : SpatialPointData.name row = "depot"%string)
        by (vm_compute in Q; injection Q as <-; reflexivity).
      rewrite <- N.
      apply (proj1 (proj2 (proj1 (M row) (or_introl eq_refl)))). reflexivity.
  - pose proof (@list_filters_order_and_pages planar
                  [("page_size", "2"); ("page", "2")]%string sample_db) as T.
    destruct T as (V & _ & _ & _ & _ & _ & _ & _ & _ & _ & P).
    destruct (P PointRow (points_queryset [("page_size", "2"); ("page", "2")]%string
                            sample_db)) as (_ & _ & _ & Pn & _).
    eexists. split.
    + rewrite (proj1 (V no_payload)).
      rewrite (Pn "2"%string 2%Z eq_refl); try discriminate;
        [| reflexivity | vm_compute; split; discriminate].
      vm_compute. reflexivity.
    + reflexivity.
  - pose proof (@list_filters_order_and_pages planar
                  [("page_size", "2"); ("page", "3")]%string sample_db) as T.
    destruct T as (V & _ & _ & _ & _ & _ & _ & _ & _ & _ & P).
    destruct (P PointRow (points_queryset [("page_size", "2"); ("page", "3")]%string
                            sample_db)) as (_ & _ & _ & _ & _ & Pi & _).
    rewrite (proj1 (V no_payload)).
    apply (Pi "3"%string eq_refl); try discriminate.
    right. exists 3%Z. split; [reflexivity |]. right. vm_compute. reflexivity.
  - exact (proj1 (proj2 (proj2 (proj2 (proj2 (proj2 (proj2 (proj2 (proj2
             (@list_filters_order_and_pages planar [("page_size", "500")]%string
                sample_db)))))))))
             "500"%string 500%Z eq_refl eq_refl eq_refl).
Defined.

(** ** The invariant of the database *)

Lemma replace_row_map_id {R A} (same : R -> bool) (key : R -> A) (new : R)
    (l : list R) :
  (forall r, same r = true -> key r = key new) ->
  map key (replace_row same new l) = map key l.
Proof.
  intro S. unfold replace_row. rewrite map_map. apply map_ext_in.
  intros r _. destruct (same r) eqn:E; [symmetry; apply S; exact E | reflexivity].
Qed.

Lemma replace_row_In {R} (same : R -> bool) (new : R) (l : list R) (r : R) :
  In r (replace_row same new l) -> r = new \/ (In r l /\ same r = false).
Proof.
  unfold replace_row. rewrite in_map_iff. intros (x & E & I).
  destruct (same x) eqn:S; [left; auto | right; subst; auto].
Qed.

Lemma replace_row_Forall {R} (P : R -> Prop) (same : R -> bool) (new : R)
    (l : list R) :
  P new -> Forall P l -> Forall P (replace_row same new l).
Proof.
  intros Pn F. apply Forall_forall. intros r I.
  apply replace_row_In in I. destruct I as [-> | [I _]]; [exact Pn |].
  rewrite Forall_forall in F. apply F. exact I.
Qed.

Lemma NoDup_snoc_fresh (ids : list N) (fresh : N) :
  NoDup ids -> Forall (fun i => (i < fresh)%N) ids -> NoDup (ids ++ [fresh]).
Proof.
  intros ND F. apply NoDup_app; [exact ND | repeat constructor; intros [] |].
  intros a I [<- | []]. rewrite Forall_forall in F. specialize (F _ I). lia.
Qed.

Lemma point_row_ok_mono (db db' : DB) (r : PointRow) :
  (next_uuid db <= next_uuid db')%N -> (now db <= now db')%Z ->
  point_row_ok db r -> point_row_ok db' r.
Proof.
  intros U T (A & I & C & W & L). repeat split; try assumption; try lia; apply L.
Qed.

Section Invariant.
Context `{GIS}.

Lemma polygon_row_ok_mono (db db' : DB) (r : PolygonRow) :
  (next_uuid db <= next_uuid db')%N -> (now db <= now db')%Z ->
  polygon_row_ok db r -> polygon_row_ok db' r.
Proof.
  intros U T (A & I & C & W & L). repeat split; try assumption; try lia; apply L.
Qed.

(** Any change limited to the points table, the clock and the id counter. *)
Lemma db_ok_points (db db' : DB) :
  db_ok db ->
  polygons db' = polygons db ->
  (next_uuid db <= next_uuid db')%N -> (now db <= now db')%Z ->
  Forall (point_row_ok db') (points db') ->
  NoDup (map SpatialPointData.id (points db')) ->
  db_ok db'.
Proof.
  intros (_ & _ & FG & NG) EG U T FP NP. unfold db_ok. rewrite EG.
  repeat split; try assumption.
  apply Forall_impl with (P := polygon_row_ok db); [| exact FG].
  intro r. apply polygon_row_ok_mono; assumption.
Qed.

Lemma db_ok_polygons (db db' : DB) :
  db_ok db ->
  points db' = points db ->
  (next_uuid db <= next_uuid db')%N -> (now db <= now db')%Z ->
  Forall (polygon_row_ok db') (polygons db') ->
  NoDup (map SpatialPolygonData.id (polygons db')) ->
  db_ok db'.
Proof.
  intros (FP & NP & _ & _) EP U T FG NG. unfold db_ok. rewrite EP.
  repeat split; try assumption.
  apply Forall_impl with (P := point_row_ok db); [| exact FP].
  intro r. apply point_row_ok_mono; assumption.
Qed.

Lemma create_point_ok (v : Validated Point) (loc : Point) (db db' : DB)
    (row : PointRow) :
  db_ok db -> v_geometry v = Some loc -> point_in_range loc ->
  create_point v db = Some (row, db') -> db_ok db'.
Proof.
  intros OK E L C. unfold create_point in C. rewrite E in C. simpl in C.
  injection C as <- <-. pose proof OK as (FP & NP & _ & _).
  apply db_ok_points with (db := db); simpl; try reflexivity; try lia; try assumption.
  - apply Forall_app. split.
    + apply Forall_impl with (P := point_row_ok db); [| exact FP].
      intro r. apply point_row_ok_mono; simpl; lia.
    + constructor; [| constructor].
      repeat split; simpl; try lia; apply L.
  - rewrite map_app. simpl. apply NoDup_snoc_fresh; [exact NP |].
    apply Forall_map. apply Forall_impl with (P := point_row_ok db); [| exact FP].
    intros r (_ & I & _). exact I.
Qed.

Lemma save_point_existing (self : PointRow) (db : DB) :
  SpatialPointData.adding self = false ->
  (exists r, In r (points db) /\ SpatialPointData.id r = SpatialPointData.id self) ->
  points (snd (save_point self db))
  = replace_row (fun r => N.eqb (SpatialPointData.id r) (SpatialPointData.id self))
      (fst (save_point self db)) (points db).
Proof.
  intros A (r & I & E). unfold save_point. simpl. rewrite A. simpl.
  assert (X : existsb (fun r => N.eqb (SpatialPointData.id r) (SpatialPointData.id self))
                (points db) = true).
  { apply existsb_exists. exists r. split; [exact I | apply N.eqb_eq; exact E]. }
  rewrite X. reflexivity.
Qed.

Lemma update_point_ok (instance : PointRow) (v : Validated Point) (db : DB) :
  db_ok db -> In instance (points db) ->
  (forall loc, v_geometry v = Some loc -> point_in_range loc) ->
  db_ok (snd (update_point instance v db)).
Proof.
  intros OK I L. pose proof OK as (FP & NP & _ & _).
  pose proof FP as FP'. rewrite Forall_forall in FP'.
  destruct (FP' _ I) as (A & U & C & W & R).
  unfold update_point.
  match goal with |- db_ok (snd (save_point ?s db)) => set (self := s) end.
  assert (Pts := @save_point_existing self db A
                   (ex_intro _ instance (conj I eq_refl))).
  assert (RowOk : point_row_ok (snd (save_point self db)) (fst (save_point self db))).
  { repeat split; simpl; try rewrite A; simpl; try lia; try assumption;
      destruct (v_geometry v) as [loc |] eqn:E; simpl;
        try apply (L loc eq_refl); apply R. }
  apply db_ok_points with (db := db); try reflexivity; try (simpl; lia);
    try assumption; rewrite Pts.
  - apply replace_row_Forall; [exact RowOk |].
    apply Forall_impl with (P := point_row_ok db); [| exact FP].
    intro r. apply point_row_ok_mono; simpl; lia.
  - rewrite replace_row_map_id; [exact NP |].
    intros r E. apply N.eqb_eq in E. exact E.
Qed.

Lemma delete_point_ok (point_id : UUID) (db : DB) :
  db_ok db ->
  db_ok (with_points db
           (filter (fun r => negb (N.eqb (SpatialPointData.id r) point_id))
              (points db))).
Proof.
  intros OK. pose proof OK as (FP & NP & _ & _).
  apply db_ok_points with (db := db); simpl; try reflexivity; try lia.
  - exact OK.
  - apply Forall_forall. intros r I. apply filter_In in I.
    rewrite Forall_forall in FP. apply (FP r). tauto.
  - clear FP OK. induction (points db) as [| r l IH]; simpl; [constructor |].
    inversion NP as [| ? ? NI ND]; subst.
    destruct (negb (N.eqb (SpatialPointData.id r) point_id)); [| apply IH; exact ND].
    simpl. constructor; [| apply IH; exact ND].
    intro I. apply NI. apply in_map_iff in I. destruct I as (x & E & I).
    apply filter_In in I. apply in_map_iff. exists x. tauto.
Qed.

(** What a successful [save] stores. *)
Lemma save_some (self : PolygonRow) (db db' : DB) (row : PolygonRow) :
  save self db = Some (row, db') ->
  exists g,
    SpatialPolygonData.geometry self = Some g /\
    SpatialPolygonData.geometry row = Some g /\
    SpatialPolygonData.area row = Some (geom_area (transform WEB_MERCATOR g)) /\
    SpatialPolygonData.id row = SpatialPolygonData.id self /\
    SpatialPolygonData.name row = SpatialPolygonData.name self /\
    SpatialPolygonData.description row = SpatialPolygonData.description self /\
    SpatialPolygonData.properties row = SpatialPolygonData.properties self /\
    SpatialPolygonData.is_active row = SpatialPolygonData.is_active self /\
    SpatialPolygonData.adding row = false /\
    SpatialPolygonData.updated_at row = now db /\
    SpatialPolygonData.created_at row
    = (if SpatialPolygonData.adding self then now db
       else SpatialPolygonData.created_at self) /\
    points db' = points db /\
    now db' = (now db + 1)%Z /\
    next_uuid db' = next_uuid db /\
    polygons db'
    = (if SpatialPolygonData.adding self
          || negb (existsb (fun r => N.eqb (SpatialPolygonData.id r)
                                       (SpatialPolygonData.id self))
                     (polygons db))
       then polygons db ++ [row]
       else replace_row (fun r => N.eqb (SpatialPolygonData.id r)
                                    (SpatialPolygonData.id self))
              row (polygons db)).
Proof.
  unfold save, super_save.
  destruct (SpatialPolygonData.geometry self) as [g |] eqn:G; simpl; rewrite G.
  - intro E. injection E as <- <-. exists g. simpl.
    repeat split; reflexivity.
  - discriminate.
Qed.

Lemma save_succeeds (self : PolygonRow) (db : DB) (g : Polygon) :
  SpatialPolygonData.geometry self = Some g ->
  exists row db', save self db = Some (row, db').
Proof.
  intro G. unfold save, super_save. rewrite G. simpl. rewrite G. eauto.
Qed.

Lemma create_polygon_ok (v : Validated Polygon) (db db' : DB) (row : PolygonRow) :
  db_ok db ->
  (forall g, v_geometry v = Some g -> polygon_acceptable g) ->
  create_polygon v db = Some (row, db') -> db_ok db'.
Proof.
  intros OK L C. unfold create_polygon in C. simpl in C.
  apply save_some in C. simpl in C.
  destruct C as (g & G & Gr & Ar & Ir & _ & _ & _ & _ & Ad & Up & Cr & Pts & Now & Nx & Pol).
  pose proof OK as (_ & _ & FG & NG).
  apply db_ok_polygons with (db := db).
  - exact OK.
  - exact Pts.
  - lia.
  - lia.
  - rewrite Pol. apply Forall_app. split.
    + apply Forall_impl with (P := polygon_row_ok db); [| exact FG].
      intro r. apply polygon_row_ok_mono; lia.
    + constructor; [| constructor].
      assert (Acc : stored_polygon_acceptable row)
        by (exists g; split; [exact Gr | apply (L g G)]).
      assert (Con : area_consistent row) by (exists g; auto).
      repeat split; try assumption; try lia; try apply Acc.
  - rewrite Pol, map_app. simpl. rewrite Ir.
    apply NoDup_snoc_fresh; [exact NG |].
    apply Forall_map. apply Forall_impl with (P := polygon_row_ok db); [| exact FG].
    intros r (_ & I & _). exact I.
Qed.

Lemma update_polygon_ok (instance : PolygonRow) (v : Validated Polygon)
    (db db' : DB) (row : PolygonRow) :
  db_ok db -> In instance (polygons db) ->
  (forall g, v_geometry v = Some g -> polygon_acceptable g) ->
  update_polygon instance v db = Some (row, db') -> db_ok db'.
Proof.
  intros OK I L U. pose proof OK as (_ & _ & FG & NG).
  pose proof FG as FG'. rewrite Forall_forall in FG'.
  destruct (FG' _ I) as (A & Ui & C & W & Con & (g0 & G0 & Acc0)).
  unfold update_polygon in U. apply save_some in U. simpl in U.
  destruct U as (g & G & Gr & Ar & Ir & _ & _ & _ & _ & Ad & Up & Cr & Pts & Now & Nx & Pol).
  rewrite A in Cr, Pol. simpl in Pol.
  assert (X : existsb (fun r => N.eqb (SpatialPolygonData.id r)
                                 (SpatialPolygonData.id instance))
                (polygons db) = true).
  { apply existsb_exists. exists instance. split; [exact I | apply N.eqb_refl]. }
  rewrite X in Pol. simpl in Pol.
  assert (Acc : polygon_acceptable g).
  { destruct (v_geometry v) as [g1 |] eqn:V.
    - injection G as <-. apply (L g1 eq_refl).
    - rewrite G0 in G. injection G as <-. exact Acc0. }
  assert (RowOk : polygon_row_ok db' row).
  { repeat split; try assumption; try lia; try apply Acc.
    - exists g. auto.
    - exists g. split; [exact Gr | exact Acc]. }
  apply db_ok_polygons with (db := db).
  - exact OK.
  - exact Pts.
  - lia.
  - lia.
  - rewrite Pol. apply replace_row_Forall; [exact RowOk |].
    apply Forall_impl with (P := polygon_row_ok db); [| exact FG].
    intro r. apply polygon_row_ok_mono; lia.
  - rewrite Pol, replace_row_map_id; [exact NG |].
    intros r E. apply N.eqb_eq in E. congruence.
Qed.

Lemma delete_polygon_ok (polygon_id : UUID) (db : DB) :
  db_ok db ->
  db_ok (with_polygons db
           (filter (fun r => negb (N.eqb (SpatialPolygonData.id r) polygon_id))
              (polygons db))).
Proof.
  intros OK. pose proof OK as (_ & _ & FG & NG).
  apply db_ok_polygons with (db := db); simpl; try reflexivity; try lia.
  - exact OK.
  - apply Forall_forall. intros r I. apply filter_In in I.
    rewrite Forall_forall in FG. apply (FG r). tauto.
  - clear FG OK. induction (polygons db) as [| r l IH]; simpl; [constructor |].
    inversion NG as [| ? ? NI ND]; subst.
    destruct (negb (N.eqb (SpatialPolygonData.id r) polygon_id));
      [| apply IH; exact ND].
    simpl. constructor; [| apply IH; exact ND].
    intro I. apply NI. apply in_map_iff in I. destruct I as (x & E & I).
    apply filter_In in I. apply in_map_iff. exists x. tauto.
Qed.
End Invariant.

Lemma bulk_loop_invariant {G R} (serializer : Payload -> Errors + Validated G)
    (create : Validated G -> DB -> option (R * DB)) (P : DB -> Prop) :
  (forall item v db row db',
      serializer item = inr v -> create v db = Some (row, db') -> P db -> P db') ->
  forall items i created errors db,
    P db -> P (snd (bulk_loop serializer create i items created errors db)).
Proof.
  intros Step items. induction items as [| item rest IH];
    intros i created errors db Pdb; simpl.
  - exact Pdb.
  - destruct (serializer item) as [e | v] eqn:Ser.
    + apply IH. exact Pdb.
    + destruct (create v db) as [[row db'] |] eqn:C.
      * apply IH. apply (Step item v db row db' Ser C Pdb).
      * exact Pdb.
Qed.

Lemma bulk_create_invariant {G R} (key missing not_array : string)
    (serializer : Payload -> Errors + Validated G)
    (create : Validated G -> DB -> option (R * DB)) (P : DB -> Prop) :
  (forall item v db row db',
      serializer item = inr v -> create v db = Some (row, db') -> P db -> P db') ->
  forall data db,
    P db -> P (snd (bulk_create key missing not_array serializer create data db)).
Proof.
  intros Step data db Pdb. unfold bulk_create.
  destruct data as [d |]; [| exact Pdb].
  destruct (dict_get key d) as [[items |] |]; try exact Pdb.
  pose proof (@bulk_loop_invariant _ _ serializer create P Step items 0%nat [] [] db Pdb)
    as Q.
  destruct (bulk_loop serializer create 0 items [] [] db) as [[[created errors] |] db'];
    simpl in *; [destruct (negb (is_nil errors)) |]; exact Q.
Qed.

Lemma validated_point_in_range (partial : bool) (d : Payload) (v : Validated Point) :
  SpatialPointDataSerializer partial d = inr v ->
  forall loc, v_geometry v = Some loc -> point_in_range loc.
Proof.
  intros E loc V. apply run_validation_inr in E.
  destruct E as (_ & _ & _ & _ & E).
  destruct (in_geometry d) as [[| g] |].
  - contradiction.
  - destruct E as (x & Hx & Vx). rewrite Vx in V. injection V as <-.
    apply validate_location_inr in Hx. apply Hx.
  - destruct E as [_ E]. congruence.
Qed.

Section Reachability.
Context `{GIS}.

Lemma validated_polygon_acceptable (partial : bool) (d : Payload)
    (v : Validated Polygon) :
  SpatialPolygonDataSerializer partial d = inr v ->
  forall g, v_geometry v = Some g -> polygon_acceptable g.
Proof.
  intros E g V. apply run_validation_inr in E.
  destruct E as (_ & _ & _ & _ & E).
  destruct (in_geometry d) as [[| g0] |].
  - contradiction.
  - destruct E as (x & Hx & Vx). rewrite Vx in V. injection V as <-.
    apply validate_geometry_inr in Hx. apply Hx.
  - destruct E as [_ E]. congruence.
Qed.

Lemma create_point_valid_ok (partial : bool) (item : Payload) (v : Validated Point)
    (db db' : DB) (row : PointRow) :
  SpatialPointDataSerializer partial item = inr v ->
  create_point v db = Some (row, db') -> db_ok db -> db_ok db'.
Proof.
  intros Ser C OK.
  destruct (v_geometry v) as [loc |] eqn:V.
  - apply (@create_point_ok _ v loc db db' row OK V
             (validated_point_in_range _ _ Ser V) C).
  - unfold create_point in C. rewrite V in C. discriminate.
Qed.

Lemma create_polygon_valid_ok (partial : bool) (item : Payload)
    (v : Validated Polygon) (db db' : DB) (row : PolygonRow) :
  SpatialPolygonDataSerializer partial item = inr v ->
  create_polygon v db = Some (row, db') -> db_ok db -> db_ok db'.
Proof.
  intros Ser C OK.
  apply (@create_polygon_ok _ v db db' row OK
           (validated_polygon_acceptable _ _ Ser) C).
Qed.

Lemma handle_ok (c : Call) (db : DB) : db_ok db -> db_ok (handle c db).
Proof.
  intro OK. destruct c as [m q d | m i d | d | m q d | m i d | d]; simpl.
  - unfold spatial_points_list_create. destruct m; cbv beta iota zeta; try exact OK.
    destruct (SpatialPointDataSerializer false d) as [e | v] eqn:Ser; [exact OK |].
    destruct (create_point v db) as [[row db'] |] eqn:C; [| exact OK].
    apply (create_point_valid_ok _ _ Ser C OK).
  - unfold spatial_point_detail.
    destruct m; try exact OK;
      (destruct (get_point i db) as [point |] eqn:F; [| exact OK]);
      apply find_some in F; destruct F as [I _];
      cbv beta iota zeta; try exact OK.
    + destruct (SpatialPointDataSerializer false d) as [e | v] eqn:Ser; [exact OK |].
      pose proof (@update_point_ok _ point v db OK I
                    (validated_point_in_range _ _ Ser)) as U.
      destruct (update_point point v db) as [row db']. exact U.
    + destruct (SpatialPointDataSerializer true d) as [e | v] eqn:Ser; [exact OK |].
      pose proof (@update_point_ok _ point v db OK I
                    (validated_point_in_range _ _ Ser)) as U.
      destruct (update_point point v db) as [row db']. exact U.
    + apply delete_point_ok. exact OK.
  - unfold spatial_points_bulk_create. apply bulk_create_invariant; [| exact OK].
    intros item v db0 row db' Ser C OK0. apply (create_point_valid_ok _ _ Ser C OK0).
  - unfold spatial_polygons_list_create. destruct m; cbv beta iota zeta; try exact OK.
    destruct (SpatialPolygonDataSerializer false d) as [e | v] eqn:Ser; [exact OK |].
    destruct (create_polygon v db) as [[row db'] |] eqn:C; [| exact OK].
    apply (create_polygon_valid_ok _ _ Ser C OK).
  - unfold spatial_polygon_detail.
    destruct m; try exact OK;
      (destruct (get_polygon i db) as [polygon |] eqn:F; [| exact OK]);
      apply find_some in F; destruct F as [I _];
      cbv beta iota zeta; try exact OK.
    + destruct (SpatialPolygonDataSerializer false d) as [e | v] eqn:Ser; [exact OK |].
      destruct (update_polygon polygon v db) as [[row db'] |] eqn:U; [| exact OK].
      apply (@update_polygon_ok _ polygon v db db' row OK I
               (validated_polygon_acceptable _ _ Ser) U).
    + destruct (SpatialPolygonDataSerializer true d) as [e | v] eqn:Ser; [exact OK |].
      destruct (update_polygon polygon v db) as [[row db'] |] eqn:U; [| exact OK].
      apply (@update_polygon_ok _ polygon v db db' row OK I
               (validated_polygon_acceptable _ _ Ser) U).
    + apply delete_polygon_ok. exact OK.
  - unfold spatial_polygons_bulk_create. apply bulk_create_invariant; [| exact OK].
    intros item v db0 row db' Ser C OK0. apply (create_polygon_valid_ok _ _ Ser C OK0).
Qed.

Lemma reachable_ok (db : DB) : reachable db -> db_ok db.
Proof.
  induction 1 as [| c db _ IH].
  - repeat split; constructor.
  - apply handle_ok. exact IH.
Qed.
End Reachability.

Lemma replace_row_new_In {R} (same : R -> bool) (new : R) (l : list R) :
  existsb same l = true -> In new (replace_row same new l).
Proof.
  intro E. apply existsb_exists in E. destruct E as (x & I & S).
  unfold replace_row. apply in_map_iff. exists x. rewrite S. auto.
Qed.

Lemma planar_area_is_nonnegative : @area_is_nonnegative planar.
Proof.
  intros [| shell holes].
  - apply Qle_refl.
  - apply (Qabs_nonneg (Planar.ring_area shell - Qsum (map Planar.ring_area holes))).
Qed.

Lemma reachable_sample_db : @reachable planar sample_db.
Proof.
  exact (@reachable_handle planar (PointDetail PATCH 1 deactivate) _
           (@reachable_handle planar
              (PolygonsBulkCreate
                 (DictData [("polygons"%string,
                             JArray [polygon_payload "block" (square (-74) 39 2);
                                     polygon_payload "field" (square 0 0 (1 # 100))])])) _
              (@reachable_handle planar
                 (PointsBulkCreate
                    (DictData [("points"%string,
                                JArray [point_payload "kiosk" (-73) (40005 # 1000);
                                        point_payload "depot" (-72999 # 1000) 40;
                                        point_payload "tower" (-72999 # 1000)
                                          (40001 # 1000)])])) _
                 (@reachable_empty planar)))).
Qed.

(** C1. Every successful save of a polygon stores, as [area], the planar area
    of its geometry reprojected from WGS84 to Web Mercator (EPSG:3857), whose
    unit is the metre, and that area is not negative; the area is taken of
    the reprojected geometry, never of the geometry in degrees; and in every
    database the service can reach, each stored [area] is the one of the
    stored [geometry]. *)
Theorem stored_area_is_projected_area `{GIS} :
  area_is_nonnegative ->
  (forall self db row db',
      save self db = Some (row, db') ->
      exists g,
        SpatialPolygonData.geometry self = Some g /\
        SpatialPolygonData.geometry row = Some g /\
        SpatialPolygonData.area row = Some (geom_area (transform WEB_MERCATOR g)) /\
        pg_srid (transform WEB_MERCATOR g) = WEB_MERCATOR /\
        area_unit (transform WEB_MERCATOR g) = Some Metre /\
        pg_rings (transform WEB_MERCATOR g)
        = reproject (pg_srid g) WEB_MERCATOR (pg_rings g) /\
        0 <= geom_area (transform WEB_MERCATOR g) /\
        In row (polygons db')) /\
  (forall db, reachable db ->
              Forall (fun r => area_consistent r /\
                               exists a, SpatialPolygonData.area r = Some a /\ 0 <= a)
                (polygons db)).
Proof.
  intro NonNeg. split.
  - intros self db row db' S. apply save_some in S.
    destruct S as (g & G & Gr & Ar & _ & _ & _ & _ & _ & _ & _ & _ & _ & _ & _ & Pol).
    exists g. repeat split; try assumption; try reflexivity.
    + apply NonNeg.
    + rewrite Pol.
      destruct (SpatialPolygonData.adding self) eqn:A; simpl.
      * apply in_or_app. right. left. reflexivity.
      * destruct (existsb _ (polygons db)) eqn:X; simpl.
        -- apply replace_row_new_In. exact X.
        -- apply in_or_app. right. left. reflexivity.
  - intros db Rdb. apply reachable_ok in Rdb. destruct Rdb as (_ & _ & FG & _).
    apply Forall_impl with (P := polygon_row_ok db); [| exact FG].
    intros r (_ & _ & _ & _ & Con & _). split; [exact Con |].
    destruct Con as (g & _ & Ar). eexists. split; [exact Ar | apply NonNeg].
Qed.

Lemma stored_area_is_projected_area_witness :
  Forall (fun r => area_consistent r /\
                   exists a, SpatialPolygonData.area r = Some a /\ 0 <= a)
    (polygons sample_db).
Proof.
  exact (proj2 (@stored_area_is_projected_area planar planar_area_is_nonnegative)
           sample_db reachable_sample_db).
Defined.

(** ** Bulk ingestion of any batch *)

Section BulkReport.
Context {G R : Type}.
Variable serializer : Payload -> Errors + Validated G.
Variable create : Validated G -> DB -> option (R * DB).
Variable table : DB -> list R.
Variable row_of : Validated G -> R -> Prop.
Variable key missing not_array : string.

Hypothesis create_appends :
  forall item v db,
    serializer item = inr v ->
    exists row db',
      create v db = Some (row, db') /\ table db' = table db ++ [row] /\ row_of v row.

End BulkReport.



Lemma reachable_planar_seeded_db : @reachable planar seeded_db.
Proof.
  exact (@reachable_handle planar
           (PolygonsBulkCreate
              (DictData [("polygons"%string,
                          JArray [polygon_payload "block" (square (-74) 39 2);
                                  polygon_payload "field" (square 0 0 (1 # 100))])])) _
           (@reachable_handle planar
              (PointsBulkCreate
                 (DictData [("points"%string,
                             JArray [point_payload "kiosk" (-73) (40005 # 1000);
                                     point_payload "depot" (-72999 # 1000) 40;
                                     point_payload "tower" (-72999 # 1000)
                                       (40001 # 1000)])])) _
              (@reachable_empty planar))).
Qed.



(** ** Deactivation *)

Lemma paginated_rows_in_queryset `{GIS} {R} (queryset : list R) (q : QueryDict)
    (r : R) :
  In r (body_rows (body (paginated_response queryset q))) -> In r queryset.
Proof.
  unfold paginated_response.
  destruct (paginate_queryset queryset q) as [page |] eqn:P; simpl; [| contradiction].
  apply paginate_queryset_slice in P. destruct P as (_ & before & after & E).
  intro I. rewrite E. apply in_or_app. right. apply in_or_app. left. exact I.
Qed.

Lemma find_replace_row {R} (same : R -> bool) (new : R) (l : list R) (x : R) :
  same new = true -> find same l = Some x ->
  find same (replace_row same new l) = Some new.
Proof.
  intros Sn. induction l as [| y r IH]; simpl; [discriminate |].
  destruct (same y) eqn:Sy.
  - intros _. rewrite Sn. reflexivity.
  - rewrite Sy. exact IH.
Qed.

(** The detail views on an update. *)
Lemma spatial_point_detail_update (m : Method) (point_id : UUID) (d : Payload)
    (db : DB) :
  m = PUT \/ m = PATCH ->
  spatial_point_detail m point_id d db
  = match get_point point_id db with
    | None => (not_found, db)
    | Some point =>
        match SpatialPointDataSerializer (match m with PATCH => true | _ => false end) d
        with
        | inr v =>
            let (row, db') := update_point point v db in
            (mkResponse HTTP_200_OK (One row), db')
        | inl errors => (mkResponse HTTP_400_BAD_REQUEST (FieldErrors errors), db)
        end
    end.
Proof. intros [-> | ->]; reflexivity. Qed.

Lemma spatial_polygon_detail_update `{GIS} (m : Method) (polygon_id : UUID)
    (d : Payload) (db : DB) :
  m = PUT \/ m = PATCH ->
  spatial_polygon_detail m polygon_id d db
  = match get_polygon polygon_id db with
    | None => (not_found, db)
    | Some polygon =>
        match SpatialPolygonDataSerializer
                (match m with PATCH => true | _ => false end) d
        with
        | inr v =>
            match update_polygon polygon v db with
            | Some (row, db') => (mkResponse HTTP_200_OK (One row), db')
            | None => (server_error, db)
            end
        | inl errors => (mkResponse HTTP_400_BAD_REQUEST (FieldErrors errors), db)
        end
    end.
Proof. intros [-> | ->]; reflexivity. Qed.

Section Deactivation.
Context `{GIS}.

(** What an accepted update of a point does to the table. *)
Lemma point_update_effect (m : Method) (point_id : UUID) (d : Payload)
    (db db' : DB) (row : PointRow) :
  db_ok db -> m = PUT \/ m = PATCH ->
  spatial_point_detail m point_id d db = (mkResponse HTTP_200_OK (One row), db') ->
  exists point v,
    get_point point_id db = Some point /\
    SpatialPointDataSerializer (match m with PATCH => true | _ => false end) d
    = inr v /\
    update_point point v db = (row, db') /\
    SpatialPointData.id row = point_id /\
    points db'
    = replace_row (fun r => N.eqb (SpatialPointData.id r) point_id) row (points db) /\
    polygons db' = polygons db.
Proof.
  intros OK M E. rewrite (spatial_point_detail_update point_id d db M) in E.
  destruct (get_point point_id db) as [point |] eqn:F; [| discriminate].
  pose proof (find_some _ _ F) as [I Id]. apply N.eqb_eq in Id.
  destruct OK as (FP & _). rewrite Forall_forall in FP.
  destruct (FP _ I) as (A & _).
  exists point.
  assert (K : forall partial v,
             SpatialPointDataSerializer partial d = inr v ->
             update_point point v db = (row, db') ->
             SpatialPointData.id row = point_id /\
             points db'
             = replace_row (fun r => N.eqb (SpatialPointData.id r) point_id) row
                 (points db) /\
             polygons db' = polygons db).
  { intros partial v _ U. unfold update_point in U.
    match type of U with save_point ?s db = _ => set (self := s) in * end.
    pose proof (@save_point_existing self db A
                  (ex_intro _ point (conj I eq_refl))) as Pts.
    rewrite U in Pts. simpl in Pts. rewrite Id in Pts.
    assert (Ir : SpatialPointData.id (fst (save_point self db)) = point_id)
      by exact Id.
    assert (Pg : polygons (snd (save_point self db)) = polygons db) by reflexivity.
    rewrite U in Ir, Pg. auto. }
  destruct M as [-> | ->]; cbv beta iota zeta in E.
  - destruct (SpatialPointDataSerializer false d) as [e | v] eqn:Ser;
      [discriminate |].
    destruct (update_point point v db) as [row0 db0] eqn:U.
    injection E as <- <-. exists v.
    destruct (K false v Ser U) as (K1 & K2 & K3). auto 10.
  - destruct (SpatialPointDataSerializer true d) as [e | v] eqn:Ser;
      [discriminate |].
    destruct (update_point point v db) as [row0 db0] eqn:U.
    injection E as <- <-. exists v.
    destruct (K true v Ser U) as (K1 & K2 & K3). auto 10.
Qed.

Lemma polygon_update_effect (m : Method) (polygon_id : UUID) (d : Payload)
    (db db' : DB) (row : PolygonRow) :
  db_ok db -> m = PUT \/ m = PATCH ->
  spatial_polygon_detail m polygon_id d db
  = (mkResponse HTTP_200_OK (One row), db') ->
  exists polygon v,
    get_polygon polygon_id db = Some polygon /\
    SpatialPolygonDataSerializer (match m with PATCH => true | _ => false end) d
    = inr v /\
    update_polygon polygon v db = Some (row, db') /\
    SpatialPolygonData.id row = polygon_id /\
    polygons db'
    = replace_row (fun r => N.eqb (SpatialPolygonData.id r) polygon_id) row
        (polygons db) /\
    points db' = points db.
Proof.
  intros OK M E. rewrite (spatial_polygon_detail_update polygon_id d db M) in E.
  destruct (get_polygon polygon_id db) as [polygon |] eqn:F; [| discriminate].
  pose proof (find_some _ _ F) as [I Id]. apply N.eqb_eq in Id.
  destruct OK as (_ & _ & FG & _). rewrite Forall_forall in FG.
  destruct (FG _ I) as (A & _).
  exists polygon.
  assert (K : forall v,
             update_polygon polygon v db = Some (row, db') ->
             SpatialPolygonData.id row = polygon_id /\
             polygons db'
             = replace_row (fun r => N.eqb (SpatialPolygonData.id r) polygon_id) row
                 (polygons db) /\
             points db' = points db).
  { intros v U. unfold update_polygon in U. apply save_some in U. simpl in U.
    destruct U as (g & _ & _ & _ & Ir & _ & _ & _ & _ & _ & _ & _ & Pts & _ & _ & Pol).
    rewrite A in Pol. simpl in Pol.
    assert (X : existsb (fun r => N.eqb (SpatialPolygonData.id r)
                                   (SpatialPolygonData.id polygon))
                  (polygons db) = true).
    { apply existsb_exists. exists polygon. split; [exact I | apply N.eqb_refl]. }
    rewrite X in Pol. simpl in Pol. rewrite Id in Pol, Ir. auto. }
  destruct M as [-> | ->]; cbv beta iota zeta in E.
  - destruct (SpatialPolygonDataSerializer false d) as [e | v] eqn:Ser;
      [discriminate |].
    destruct (update_polygon polygon v db) as [[row0 db0] |] eqn:U; [| discriminate].
    injection E as <- <-. exists v.
    destruct (K v U) as (K1 & K2 & K3). auto 10.
  - destruct (SpatialPolygonDataSerializer true d) as [e | v] eqn:Ser;
      [discriminate |].
    destruct (update_polygon polygon v db) as [[row0 db0] |] eqn:U; [| discriminate].
    injection E as <- <-. exists v.
    destruct (K v U) as (K1 & K2 & K3). auto 10.
Qed.
End Deactivation.

Section DeactivationQueries.
Context `{GIS}.

Lemma replaced_row_unique {R} (key : R -> UUID) (i : UUID) (row : R)
    (old new : list R) (r : R) :
  new = replace_row (fun x => N.eqb (key x) i) row old ->
  In r new -> key r = i -> r = row.
Proof.
  intros -> I K. apply replace_row_In in I.
  destruct I as [E | [_ F]]; [exact E |].
  apply N.eqb_neq in F. contradiction.
Qed.

Lemma containing_rows_active (q : QueryDict) (db : DB) (r : PolygonRow) :
  In r (body_rows (body (spatial_polygons_containing_point q db))) ->
  In r (polygons db) /\ SpatialPolygonData.is_active r = true.
Proof.
  unfold spatial_polygons_containing_point.
  destruct (float_param "lat" q), (float_param "lng" q); simpl; try contradiction.
  intro I. apply filter_In in I. destruct I as [I A].
  apply andb_true_iff in A. tauto.
Qed.
End DeactivationQueries.

Lemma page_covers {R} (l : list R) (i : nat) (x : R) (n size : Z) :
  nth_error l i = Some x -> (1 <= size)%Z ->
  ((n - 1) * size <= Z.of_nat i < n * size)%Z ->
  In x (firstn (Z.to_nat size) (skipn (Z.to_nat ((n - 1) * size)) l)).
Proof.
  intros E S B.
  set (a := Z.to_nat ((n - 1) * size)).
  assert (Ha : (a <= i)%nat) by (unfold a; lia).
  assert (Hb : (i - a < Z.to_nat size)%nat).
  { unfold a. replace (n * size)%Z with ((n - 1) * size + size)%Z in B by ring.
    set (lo := ((n - 1) * size)%Z) in *. lia. }
  apply nth_error_In with (n := (i - a)%nat).
  rewrite nth_error_firstn.
  replace (i - a <? Z.to_nat size)%nat with true
    by (symmetry; apply Nat.ltb_lt; exact Hb).
  rewrite nth_error_skipn. replace (a + (i - a))%nat with i by lia. exact E.
Qed.

Lemma paginated_response_covers `{GIS} {R} (queryset : list R) (q : QueryDict)
    (i : nat) (x : R) (n : Z) :
  nth_error queryset i = Some x ->
  get_page_number q (num_pages (List.length queryset) (get_page_size q)) = Some n ->
  ((n - 1) * get_page_size q <= Z.of_nat i < n * get_page_size q)%Z ->
  In x (body_rows (body (paginated_response queryset q))).
Proof.
  intros E P B. unfold paginated_response, paginate_queryset. rewrite P. simpl.
  apply (@page_covers R queryset i x n (get_page_size q) E);
    [apply get_page_size_bounds | exact B].
Qed.

Lemma paginated_response_single_page `{GIS} {R} (queryset : list R) (q : QueryDict)
    (x : R) :
  qget "page" q = None ->
  (Z.of_nat (List.length queryset) <= get_page_size q)%Z ->
  In x queryset ->
  In x (body_rows (body (paginated_response queryset q))).
Proof.
  intros P L I. rewrite (@paginated_response_first_page _ R queryset q (or_introl P)).
  simpl. rewrite firstn_all2; [exact I | lia].
Qed.

(** C5, as the code has it. Deactivating an entity (an accepted PUT or PATCH
    with [is_active] false) removes it from the polygons-containing-point
    results, from the rows the nearby-points query selects and from the list
    results filtered with [is_active=true]. The list without a [name] or
    [is_active] filter still lists it: it stays in the result set at some
    position, it is returned by every request whose page covers that
    position, and so by the request without a [page] whenever the table fits
    on one page. [get] on its id still succeeds and returns the record. *)
Theorem deactivation_hides_from_active_queries `{GIS} (db : DB) :
  reachable db ->
  (forall m point_id d row db',
      m = PUT \/ m = PATCH ->
      in_is_active d = Some false ->
      spatial_point_detail m point_id d db = (mkResponse HTTP_200_OK (One row), db') ->
      SpatialPointData.id row = point_id /\
      SpatialPointData.is_active row = false /\
      (forall q v data r,
          qget "is_active" q = Some v -> parse_flag v = true ->
          In r (body_rows (body (fst (spatial_points_list_create GET q data db')))) ->
          SpatialPointData.id r <> point_id) /\
      (forall sp distance r,
          In r (nearby_points sp distance db') ->
          SpatialPointData.id r <> point_id) /\
      (forall q,
          qget "name" q = None -> qget "is_active" q = None ->
          In row (points_queryset q db') /\
          (forall data,
              qget "page" q = None ->
              (Z.of_nat (List.length (points db')) <= get_page_size q)%Z ->
              In row (body_rows
                        (body (fst (spatial_points_list_create GET q data db'))))) /\
          exists i,
            nth_error (points_queryset q db') i = Some row /\
            forall data n,
              get_page_number q
                (num_pages (List.length (points_queryset q db')) (get_page_size q))
              = Some n ->
              ((n - 1) * get_page_size q <= Z.of_nat i < n * get_page_size q)%Z ->
              In row (body_rows
                        (body (fst (spatial_points_list_create GET q data db'))))) /\
      (forall data,
          spatial_point_detail GET point_id data db'
          = (mkResponse HTTP_200_OK (One row), db'))) /\
  (forall m polygon_id d row db',
      m = PUT \/ m = PATCH ->
      in_is_active d = Some false ->
      spatial_polygon_detail m polygon_id d db
      = (mkResponse HTTP_200_OK (One row), db') ->
      SpatialPolygonData.id row = polygon_id /\
      SpatialPolygonData.is_active row = false /\
      (forall q r,
          In r (body_rows (body (spatial_polygons_containing_point q db'))) ->
          SpatialPolygonData.id r <> polygon_id) /\
      (forall q v data r,
          qget "is_active" q = Some v -> parse_flag v = true ->
          In r (body_rows (body (fst (spatial_polygons_list_create GET q data db')))) ->
          SpatialPolygonData.id r <> polygon_id) /\
      (forall q,
          qget "name" q = None -> qget "is_active" q = None ->
          qget "min_area" q = None -> qget "max_area" q = None ->
          In row (polygons_queryset q db') /\
          (forall data,
              qget "page" q = None ->
              (Z.of_nat (List.length (polygons db')) <= get_page_size q)%Z ->
              In row (body_rows
                        (body (fst (spatial_polygons_list_create GET q data db'))))) /\
          exists i,
            nth_error (polygons_queryset q db') i = Some row /\
            forall data n,
              get_page_number q
                (num_pages (List.length (polygons_queryset q db')) (get_page_size q))
              = Some n ->
              ((n - 1) * get_page_size q <= Z.of_nat i < n * get_page_size q)%Z ->
              In row (body_rows
                        (body (fst (spatial_polygons_list_create GET q data db'))))) /\
      (forall data,
          spatial_polygon_detail GET polygon_id data db'
          = (mkResponse HTTP_200_OK (One row), db'))).
Proof.
  intro Rdb. apply reachable_ok in Rdb. split.
  - intros m point_id d row db' M Off E.
    destruct (@point_update_effect _ m point_id d db db' row Rdb M E) as (point & v & F & Ser & U & Ir & Pts & _).
    assert (Act : SpatialPointData.is_active row = false).
    { apply run_validation_inr in Ser. destruct Ser as (_ & _ & _ & Va & _).
      assert (X : SpatialPointData.is_active (fst (update_point point v db))
                  = or_default (v_is_active v) (SpatialPointData.is_active point))
        by reflexivity.
      rewrite U, Va, Off in X. exact X. }
    assert (Uniq : forall r, In r (points db') -> SpatialPointData.id r = point_id ->
                             r = row).
    { intros r. apply (@replaced_row_unique PointRow SpatialPointData.id point_id
                         row (points db) (points db') r Pts). }
    assert (Stored : In row (points db')).
    { rewrite Pts. apply replace_row_new_In. apply existsb_exists.
      exists point. exact (find_some _ _ F). }
    split; [exact Ir |]. split; [exact Act |].
    split; [| split; [| split]].
    + intros q flag data r Q V I Id. simpl in I.
      apply paginated_rows_in_queryset in I. unfold points_queryset in I.
      apply filter_common_In in I. destruct I as (I & _ & A).
      apply order_by_In in I. specialize (A flag Q).
      rewrite (Uniq r I Id), V in A. congruence.
    + intros sp distance r I Id. apply nearby_points_In in I.
      destruct I as (I & A & _). rewrite (Uniq r I Id) in A. congruence.
    + intros q Qn Qa.
      assert (Iq : In row (points_queryset q db')).
      { unfold points_queryset. apply filter_common_In.
        rewrite order_by_In, Qn, Qa. repeat split; [exact Stored | |]; discriminate. }
      split; [exact Iq |]. split.
      * intros data P L. simpl.
        apply paginated_response_single_page; [exact P | | exact Iq].
        unfold points_queryset, filter_common. rewrite Qn, Qa.
        rewrite (Permutation_length (order_by_perm newest_first_point (points db'))).
        exact L.
      * destruct (In_nth_error _ _ Iq) as [i Ei]. exists i. split; [exact Ei |].
        intros data n P B. simpl.
        apply (@paginated_response_covers _ PointRow _ q i row n Ei P B).
    + intro data. unfold spatial_point_detail.
      assert (G : get_point point_id db' = Some row).
      { unfold get_point. rewrite Pts.
        apply find_replace_row with (x := point); [apply N.eqb_eq; exact Ir | exact F]. }
      rewrite G. reflexivity.
  - intros m polygon_id d row db' M Off E.
    destruct (@polygon_update_effect _ m polygon_id d db db' row Rdb M E) as (polygon & v & F & Ser & U & Ir & Pol & _).
    assert (Act : SpatialPolygonData.is_active row = false).
    { apply run_validation_inr in Ser. destruct Ser as (_ & _ & _ & Va & _).
      unfold update_polygon in U. apply save_some in U. simpl in U.
      destruct U as (g & _ & _ & _ & _ & _ & _ & _ & Ia & _).
      rewrite Ia, Va, Off. reflexivity. }
    assert (Uniq : forall r, In r (polygons db') -> SpatialPolygonData.id r = polygon_id ->
                             r = row).
    { intros r. apply (@replaced_row_unique PolygonRow SpatialPolygonData.id
                         polygon_id row (polygons db) (polygons db') r Pol). }
    assert (Stored : In row (polygons db')).
    { rewrite Pol. apply replace_row_new_In. apply existsb_exists.
      exists polygon. exact (find_some _ _ F). }
    split; [exact Ir |]. split; [exact Act |]. split; [| split; [| split]].
    + intros q r I Id. apply containing_rows_active in I. destruct I as [I A].
      rewrite (Uniq r I Id) in A. congruence.
    + intros q flag data r Q V I Id. simpl in I.
      apply paginated_rows_in_queryset in I. unfold polygons_queryset in I.
      apply filter_bound_In in I. destruct I as [I _].
      apply filter_bound_In in I. destruct I as [I _].
      apply filter_common_In in I. destruct I as (I & _ & A).
      apply order_by_In in I. specialize (A flag Q).
      rewrite (Uniq r I Id), V in A. congruence.
    + intros q Qn Qa Qlo Qhi.
      assert (Iq : In row (polygons_queryset q db')).
      { unfold polygons_queryset.
        rewrite Qlo, Qhi. simpl. apply filter_common_In.
        rewrite order_by_In, Qn, Qa. repeat split; [exact Stored | |]; discriminate. }
      split; [exact Iq |]. split.
      * intros data P L. simpl.
        apply paginated_response_single_page; [exact P | | exact Iq].
        unfold polygons_queryset, filter_common. rewrite Qlo, Qhi, Qn, Qa. simpl.
        rewrite (Permutation_length
                   (order_by_perm newest_first_polygon (polygons db'))).
        exact L.
      * destruct (In_nth_error _ _ Iq) as [i Ei]. exists i. split; [exact Ei |].
        intros data n P B. simpl.
        apply (@paginated_response_covers _ PolygonRow _ q i row n Ei P B).
    + intro data. unfold spatial_polygon_detail.
      assert (G : get_polygon polygon_id db' = Some row).
      { unfold get_polygon. rewrite Pol.
        apply find_replace_row with (x := polygon); [apply N.eqb_eq; exact Ir | exact F]. }
      rewrite G. reflexivity.
Qed.

(** C5 as stated fails: after the second point of the sample database is
    deactivated, the list without filter still returns it. *)
Lemma default_list_returns_deactivated_point :
  let answer := spatial_point_detail PATCH 1 deactivate seeded_db in
  status (fst answer) = HTTP_200_OK /\
  exists row,
    body (fst answer) = One row /\
    SpatialPointData.is_active row = false /\
    In row (body_rows (body (fst (spatial_points_list_create GET [] no_payload
                                    (snd answer))))).
Proof.
  vm_compute. split; [reflexivity |].
  eexists. split; [reflexivity |]. split; [reflexivity |].
  right. left. reflexivity.
Qed.

Lemma deactivation_hides_from_active_queries_witness :
  exists row,
    SpatialPointData.id row = 1%N /\
    SpatialPointData.is_active row = false /\
    In row (body_rows
              (body (fst (spatial_points_list_create GET [] no_payload sample_db)))) /\
    ~ In 1%N
        (map SpatialPointData.id
           (body_rows
              (body (fst (spatial_points_list_create GET
                            [("is_active", "TRUE")]%string no_payload sample_db))))) /\
    spatial_point_detail GET 1 no_payload sample_db
    = (mkResponse HTTP_200_OK (One row), sample_db).
Proof.
  eexists.
  refine (match proj1 (@deactivation_hides_from_active_queries planar seeded_db
                         reachable_planar_seeded_db)
                  PATCH 1%N deactivate _ sample_db (or_intror eq_refl) eq_refl eq_refl
          with
          | conj Id (conj Off (conj Act (conj _ (conj All Get)))) =>
              conj Id (conj Off (conj _ (conj _ (Get no_payload))))
          end).
  - apply (proj1 (proj2 (All [] eq_refl eq_refl)) no_payload eq_refl).
    vm_compute. discriminate.
  - intro I. apply in_map_iff in I. destruct I as (r & Id' & I).
    exact (Act [("is_active", "TRUE")]%string "TRUE"%string no_payload r
             eq_refl eq_refl I Id').
Defined.

(** * Further properties of the views *)






Lemma find_filter_out {R} (key : R -> UUID) (i : UUID) (l : list R) :
  find (fun r => N.eqb (key r) i) (filter (fun r => negb (N.eqb (key r) i)) l) = None.
Proof.
  induction l as [| y r IH]; simpl; [reflexivity |].
  destruct (N.eqb (key y) i) eqn:E; simpl; [exact IH |].
  rewrite E. exact IH.
Qed.

Lemma filter_out_In {R} (key : R -> UUID) (i : UUID) (l : list R) (r : R) :
  In r (filter (fun r => negb (N.eqb (key r) i)) l) <-> In r l /\ key r <> i.
Proof.
  rewrite filter_In, negb_true_iff, N.eqb_neq. reflexivity.
Qed.

(** X3. Deleting removes the row for good: the answer is 204, after which
    GET, PUT, PATCH and a second DELETE on that id answer 404 (POST, which the
    detail views do not serve, answers 405 as on any id), and every other row
    is kept; deleting an id that is not stored answers 404 and changes
    nothing. *)
Theorem delete_is_final_and_local `{GIS} (data : Payload) (db : DB) :
  (forall point_id,
      (get_point point_id db = None ->
       spatial_point_detail DELETE point_id data db = (not_found, db)) /\
      (forall point,
          get_point point_id db = Some point ->
          exists db',
            spatial_point_detail DELETE point_id data db
            = (mkResponse HTTP_204_NO_CONTENT Empty, db') /\
            (forall m data',
                spatial_point_detail m point_id data' db'
                = (match m with
                   | POST => method_not_allowed
                   | _ => not_found
                   end, db')) /\
            (forall r, In r (points db') <->
                       In r (points db) /\ SpatialPointData.id r <> point_id) /\
            polygons db' = polygons db)) /\
  (forall polygon_id,
      (get_polygon polygon_id db = None ->
       spatial_polygon_detail DELETE polygon_id data db = (not_found, db)) /\
      (forall polygon,
          get_polygon polygon_id db = Some polygon ->
          exists db',
            spatial_polygon_detail DELETE polygon_id data db
            = (mkResponse HTTP_204_NO_CONTENT Empty, db') /\
            (forall m data',
                spatial_polygon_detail m polygon_id data' db'
                = (match m with
                   | POST => method_not_allowed
                   | _ => not_found
                   end, db')) /\
            (forall r, In r (polygons db') <->
                       In r (polygons db) /\ SpatialPolygonData.id r <> polygon_id) /\
            points db' = points db)).
Proof.
  split.
  - intro point_id. split.
    + intro F. unfold spatial_point_detail. rewrite F. reflexivity.
    + intros point F. eexists. split; [| split; [| split]].
      * unfold spatial_point_detail. rewrite F. reflexivity.
      * intros m data'. unfold spatial_point_detail, get_point. simpl.
        rewrite (find_filter_out SpatialPointData.id). destruct m; reflexivity.
      * intro r. simpl. apply (filter_out_In SpatialPointData.id).
      * reflexivity.
  - intro polygon_id. split.
    + intro F. unfold spatial_polygon_detail. rewrite F. reflexivity.
    + intros polygon F. eexists. split; [| split; [| split]].
      * unfold spatial_polygon_detail. rewrite F. reflexivity.
      * intros m data'. unfold spatial_polygon_detail, get_polygon. simpl.
        rewrite (find_filter_out SpatialPolygonData.id). destruct m; reflexivity.
      * intro r. simpl. apply (filter_out_In SpatialPolygonData.id).
      * reflexivity.
Qed.

Lemma delete_is_final_and_local_witness :
  exists db',
    spatial_point_detail DELETE 1 no_payload sample_db
    = (mkResponse HTTP_204_NO_CONTENT Empty, db') /\
    spatial_point_detail DELETE 1 no_payload db' = (not_found, db') /\
    spatial_point_detail GET 1 no_payload db' = (not_found, db').
Proof.
  destruct (proj2 (proj1 (@delete_is_final_and_local planar no_payload sample_db) 1%N)
              _ eq_refl) as (db' & E & Gone & _).
  exists db'. split; [exact E |].
  split; [exact (Gone DELETE no_payload) | exact (Gone GET no_payload)].
Defined.

(** X4. In every database the service can reach, no row was updated before it
    was created, and no timestamp lies in the future. *)
Theorem timestamps_are_ordered `{GIS} (db : DB) :
  reachable db ->
  Forall (fun r => (SpatialPointData.created_at r <= SpatialPointData.updated_at r)%Z /\
                   (SpatialPointData.updated_at r < now db)%Z) (points db) /\
  Forall (fun r => (SpatialPolygonData.created_at r <= SpatialPolygonData.updated_at r)%Z /\
                   (SpatialPolygonData.updated_at r < now db)%Z) (polygons db).
Proof.
  intro Rdb. apply reachable_ok in Rdb. destruct Rdb as (FP & _ & FG & _). split.
  - apply Forall_impl with (P := point_row_ok db); [| exact FP].
    intros r (_ & _ & C & U & _). auto.
  - apply Forall_impl with (P := polygon_row_ok db); [| exact FG].
    intros r (_ & _ & C & U & _). auto.
Qed.

Lemma timestamps_are_ordered_witness :
  Forall (fun r => (SpatialPointData.created_at r <= SpatialPointData.updated_at r)%Z /\
                   (SpatialPointData.updated_at r < now sample_db)%Z)
    (points sample_db).
Proof.
  exact (proj1 (@timestamps_are_ordered planar sample_db reachable_sample_db)).
Defined.

(** X5. In every database the service can reach, the ids of the stored points
    are pairwise distinct, and so are those of the stored polygons; hence the
    row a detail view finds is the only one with that id. *)
Theorem ids_are_unique `{GIS} (db : DB) :
  reachable db ->
  NoDup (map SpatialPointData.id (points db)) /\
  NoDup (map SpatialPolygonData.id (polygons db)) /\
  (forall point_id point r,
      get_point point_id db = Some point ->
      In r (points db) -> SpatialPointData.id r = point_id -> r = point) /\
  (forall polygon_id polygon r,
      get_polygon polygon_id db = Some polygon ->
      In r (polygons db) -> SpatialPolygonData.id r = polygon_id -> r = polygon).
Proof.
  intro Rdb. apply reachable_ok in Rdb. destruct Rdb as (_ & NP & _ & NG).
  assert (K : forall (R : Type) (key : R -> UUID) (l : list R) (i : UUID) (x r : R),
             NoDup (map key l) -> find (fun y => N.eqb (key y) i) l = Some x ->
             In r l -> key r = i -> r = x).
  { intros R key l i x r ND F I E.
    apply find_some in F. destruct F as [Ix Ex]. apply N.eqb_eq in Ex.
    clear - ND I Ix E Ex. induction l as [| y l IH]; [contradiction |].
    simpl in ND. inversion ND as [| ? ? NI ND']; subst.
    destruct I as [Er | I], Ix as [Ey | Ix].
    - congruence.
    - exfalso. apply NI. apply in_map_iff. exists x. split; [congruence | exact Ix].
    - exfalso. apply NI. apply in_map_iff. exists r. split; [congruence | exact I].
    - apply IH; assumption. }
  repeat split; try assumption.
  - intros i x r. apply K. exact NP.
  - intros i x r. apply K. exact NG.
Qed.

Lemma ids_are_unique_witness :
  NoDup (map SpatialPointData.id (points sample_db)) /\
  NoDup (map SpatialPolygonData.id (polygons sample_db)).
Proof.
  split.
  - exact (proj1 (@ids_are_unique planar sample_db reachable_sample_db)).
  - exact (proj1 (proj2 (@ids_are_unique planar sample_db reachable_sample_db))).
Defined.

(** X6. An accepted update of a point keeps its id and its creation time, stamps
    it with the time of the update, leaves every attribute the payload does
    not mention as it was, and leaves every other point alone. *)
Theorem update_keeps_identity `{GIS} (m : Method) (point_id : UUID) (d : Payload)
    (db db' : DB) (row : PointRow) :
  reachable db ->
  m = PUT \/ m = PATCH ->
  spatial_point_detail m point_id d db = (mkResponse HTTP_200_OK (One row), db') ->
  exists old,
    get_point point_id db = Some old /\
    SpatialPointData.id row = SpatialPointData.id old /\
    SpatialPointData.created_at row = SpatialPointData.created_at old /\
    SpatialPointData.updated_at row = now db /\
    (in_name d = None -> SpatialPointData.name row = SpatialPointData.name old) /\
    (in_description d = None ->
     SpatialPointData.description row = SpatialPointData.description old) /\
    (in_geometry d = None ->
     SpatialPointData.location row = SpatialPointData.location old) /\
    (in_properties d = None ->
     SpatialPointData.properties row = SpatialPointData.properties old) /\
    (in_is_active d = None ->
     SpatialPointData.is_active row = SpatialPointData.is_active old) /\
    (forall r, SpatialPointData.id r <> point_id ->
               (In r (points db') <-> In r (points db))) /\
    List.length (points db') = List.length (points db).
Proof.
  intros Rdb M E. apply reachable_ok in Rdb.
  destruct (@point_update_effect _ m point_id d db db' row Rdb M E)
    as (old & v & F & Ser & U & Ir & Pts & _).
  pose proof (find_some _ _ F) as [I Id]. apply N.eqb_eq in Id.
  destruct Rdb as (FP & _). rewrite Forall_forall in FP.
  destruct (FP _ I) as (A & _).
  apply run_validation_inr in Ser.
  destruct Ser as (Vn & Vd & Vp & Va & Vg).
  assert (Row : row = fst (update_point old v db)) by (rewrite U; reflexivity).
  exists old. split; [exact F |].
  split; [rewrite Row; reflexivity |].
  split; [rewrite Row; simpl; rewrite A; reflexivity |].
  split; [rewrite Row; reflexivity |].
  split; [intro N; rewrite Row; simpl; rewrite Vn, N; reflexivity |].
  split; [intro N; rewrite Row; simpl; rewrite Vd, N; reflexivity |].
  split.
  { intro N. rewrite N in Vg. destruct Vg as [_ Vg].
    rewrite Row. simpl. rewrite Vg. reflexivity. }
  split; [intro N; rewrite Row; simpl; rewrite Vp, N; reflexivity |].
  split; [intro N; rewrite Row; simpl; rewrite Va, N; reflexivity |].
  split.
  - intros r Nr. rewrite Pts. split.
    + intro Ir'. apply replace_row_In in Ir'.
      destruct Ir' as [-> | [Ir' _]]; [contradiction | exact Ir'].
    + intro Ir'. unfold replace_row. apply in_map_iff. exists r.
      apply N.eqb_neq in Nr. rewrite Nr. auto.
  - rewrite Pts. unfold replace_row. apply length_map.
Qed.

Lemma update_keeps_identity_witness :
  exists row old,
    spatial_point_detail PATCH 1 deactivate seeded_db
    = (mkResponse HTTP_200_OK (One row), sample_db) /\
    get_point 1 seeded_db = Some old /\
    SpatialPointData.location row = SpatialPointData.location old.
Proof.
  eexists.
  destruct (@update_keeps_identity planar PATCH 1%N deactivate seeded_db sample_db _
              reachable_planar_seeded_db (or_intror eq_refl) eq_refl)
    as (old & F & _ & _ & _ & _ & _ & Loc & _).
  exists old. split; [reflexivity |]. split; [exact F | exact (Loc eq_refl)].
Defined.

Lemma polygon_serializer_passes_area `{GIS} (partial : bool) (d : Payload)
    (a : option NumberInput) :
  a <> Some NotANumber ->
  SpatialPolygonDataSerializer partial (set_in_area d a)
  = match SpatialPolygonDataSerializer partial (set_in_area d None) with
    | inl e => inl e
    | inr v => inr (mkValidated (v_name v) (v_description v) (v_geometry v)
                      (snd (check_area true a)) (v_properties v) (v_is_active v))
    end.
Proof.
  intro Ok. unfold SpatialPolygonDataSerializer, run_validation. simpl.
  destruct (check_geo "geometry" validate_geometry partial (in_geometry d))
    as [geo_errors geo].
  destruct a as [[| x |] |]; simpl; try contradiction;
    destruct (check_name partial (in_name d) ++ geo_errors ++ [])%list; reflexivity.
Qed.

Lemma create_polygon_ignores_area `{GIS} (v : Validated Polygon)
    (a : option (option Q)) (db : DB) :
  create_polygon (mkValidated (v_name v) (v_description v) (v_geometry v) a
                    (v_properties v) (v_is_active v)) db
  = create_polygon v db.
Proof.
  unfold create_polygon, save, super_save. simpl.
  destruct (v_geometry v); reflexivity.
Qed.

Lemma update_polygon_ignores_area `{GIS} (instance : PolygonRow)
    (v : Validated Polygon) (a : option (option Q)) (db : DB) :
  update_polygon instance
    (mkValidated (v_name v) (v_description v) (v_geometry v) a
       (v_properties v) (v_is_active v)) db
  = update_polygon instance v db.
Proof.
  unfold update_polygon, save, super_save. simpl.
  destruct (v_geometry v); [reflexivity |].
  destruct (SpatialPolygonData.geometry instance); reflexivity.
Qed.

(** X7. A number, or null, sent by the client under [area] is never stored:
    on create and on update, the answer and the database are the same
    whichever of them the payload holds, or none; a value that is not a
    number is refused with 400 and stores nothing. *)
Theorem supplied_area_is_ignored `{GIS} (m : Method) (q : QueryDict) (d : Payload)
    (db : DB) :
  (forall a1 a2,
      a1 <> Some NotANumber -> a2 <> Some NotANumber ->
      spatial_polygons_list_create m q (set_in_area d a1) db
      = spatial_polygons_list_create m q (set_in_area d a2) db /\
      forall polygon_id,
        spatial_polygon_detail m polygon_id (set_in_area d a1) db
        = spatial_polygon_detail m polygon_id (set_in_area d a2) db) /\
  (exists e,
      spatial_polygons_list_create POST q (set_in_area d (Some NotANumber)) db
      = (mkResponse HTTP_400_BAD_REQUEST (FieldErrors e), db) /\
      In ("area"%string, "A valid number is required."%string) e).
Proof.
  split.
  - intros a1 a2 Ok1 Ok2. split.
    + unfold spatial_polygons_list_create. destruct m; try reflexivity.
      rewrite (polygon_serializer_passes_area false d Ok1),
        (polygon_serializer_passes_area false d Ok2).
      destruct (SpatialPolygonDataSerializer false (set_in_area d None)) as [e | v];
        [reflexivity |].
      rewrite !create_polygon_ignores_area. reflexivity.
    + intro polygon_id. unfold spatial_polygon_detail.
      destruct m; try reflexivity;
        (destruct (get_polygon polygon_id db) as [polygon |]; [| reflexivity]);
        try reflexivity; cbv beta iota zeta;
        match goal with
        | |- context [SpatialPolygonDataSerializer ?p (set_in_area d a1)] =>
            rewrite (polygon_serializer_passes_area p d Ok1),
              (polygon_serializer_passes_area p d Ok2);
            destruct (SpatialPolygonDataSerializer p (set_in_area d None)) as [e | v];
            [reflexivity |]
        end;
        rewrite !update_polygon_ignores_area; reflexivity.
  - unfold spatial_polygons_list_create, SpatialPolygonDataSerializer, run_validation.
    simpl.
    destruct (check_geo "geometry" validate_geometry false (in_geometry d))
      as [geo_errors geo].
    destruct (check_name false (in_name d) ++ geo_errors
              ++ [("area"%string, "A valid number is required."%string)])%list
      as [| x l] eqn:E.
    + apply app_eq_nil in E. destruct E as [_ E].
      apply app_eq_nil in E. destruct E as [_ E]. discriminate.
    + eexists. split; [reflexivity |]. rewrite <- E.
      apply in_or_app. right. apply in_or_app. right. left. reflexivity.
Qed.

Lemma supplied_area_is_ignored_witness :
  spatial_polygons_list_create POST []
    (set_in_area (polygon_payload "yard" (square 1 1 1)) (Some (Number 5))) sample_db
  = spatial_polygons_list_create POST []
      (set_in_area (polygon_payload "yard" (square 1 1 1)) None) sample_db.
Proof.
  refine (proj1 (proj1 (@supplied_area_is_ignored planar POST []
                          (polygon_payload "yard" (square 1 1 1)) sample_db)
                   (Some (Number 5)) None _ _)); discriminate.
Defined.

(** X8. The polygons-containing-point query answers with exactly the active
    polygons whose geometry contains the point of longitude [lng] and
    latitude [lat]; when [lat] or [lng] is missing or not numeric it answers
    with the invalid-parameter error. *)
Theorem containing_point_exact `{GIS} (q : QueryDict) (db : DB) :
  (forall lat lng,
      float_param "lat" q = Some lat -> float_param "lng" q = Some lng ->
      exists rows,
        spatial_polygons_containing_point q db = mkResponse HTTP_200_OK (Rows rows) /\
        (forall r, In r rows <->
                   In r (polygons db) /\ SpatialPolygonData.is_active r = true /\
                   exists g, SpatialPolygonData.geometry r = Some g /\
                             st_contains g (mkPoint lng lat WGS84) = true)) /\
  (float_param "lat" q = None \/ float_param "lng" q = None ->
   spatial_polygons_containing_point q db
   = mkResponse HTTP_400_BAD_REQUEST
       (ErrorMessage "Invalid parameters. lat and lng must be numbers")).
Proof.
  unfold spatial_polygons_containing_point. split.
  - intros lat lng -> ->. eexists. split; [reflexivity |].
    intro r. rewrite filter_In, andb_true_iff. unfold geometry_contains.
    destruct (SpatialPolygonData.geometry r) as [g |].
    + split.
      * intros (I & C & A). repeat split; try assumption. exists g. auto.
      * intros (I & A & g' & E & C). injection E as <-. auto.
    + split.
      * intros (_ & C & _). discriminate.
      * intros (_ & _ & g' & E & _). discriminate.
  - intros [-> | ->]; [reflexivity |].
    destruct (float_param "lat" q); reflexivity.
Qed.

Lemma containing_point_exact_witness :
  exists rows,
    spatial_polygons_containing_point [("lat", "40"); ("lng", "-73")]%string sample_db
    = mkResponse HTTP_200_OK (Rows rows) /\
    (forall r, In r rows <->
               In r (polygons sample_db) /\ SpatialPolygonData.is_active r = true /\
               exists g, SpatialPolygonData.geometry r = Some g /\
                         st_contains g (mkPoint (-73) 40 WGS84) = true).
Proof.
  exact (proj1 (@containing_point_exact planar
                  [("lat", "40"); ("lng", "-73")]%string sample_db)
           40 (-73) eq_refl eq_refl).
Defined.

(** X9. The intersecting-polygons query answers 404 for an id that is not
    stored; otherwise it answers with exactly the active polygons, other than
    the one asked about, whose geometry intersects its geometry. The polygon
    asked about is never in the answer, and need not be active itself. *)
Theorem intersecting_excludes_self `{GIS} (polygon_id : UUID) (db : DB) :
  (get_polygon polygon_id db = None ->
   spatial_polygons_intersecting polygon_id db = not_found) /\
  (forall polygon,
      get_polygon polygon_id db = Some polygon ->
      exists rows,
        spatial_polygons_intersecting polygon_id db
        = mkResponse HTTP_200_OK (Rows rows) /\
        (forall r, In r rows <->
                   In r (polygons db) /\ SpatialPolygonData.is_active r = true /\
                   SpatialPolygonData.id r <> polygon_id /\
                   geometry_intersects (SpatialPolygonData.geometry polygon) r = true) /\
        ~ In polygon rows).
Proof.
  unfold spatial_polygons_intersecting. split.
  - intros ->. reflexivity.
  - intros polygon F. rewrite F. eexists. split; [reflexivity |].
    assert (K : forall r,
               In r (filter (fun r => negb (N.eqb (SpatialPolygonData.id r) polygon_id))
                       (filter (fun r => geometry_intersects
                                           (SpatialPolygonData.geometry polygon) r
                                         && SpatialPolygonData.is_active r)
                          (polygons db))) <->
               In r (polygons db) /\ SpatialPolygonData.is_active r = true /\
               SpatialPolygonData.id r <> polygon_id /\
               geometry_intersects (SpatialPolygonData.geometry polygon) r = true).
    { intro r. rewrite !filter_In, andb_true_iff, negb_true_iff, N.eqb_neq. tauto. }
    split; [exact K |].
    intro I. apply K in I. destruct I as (_ & _ & N & _).
    apply find_some in F. destruct F as [_ E]. apply N.eqb_eq in E. contradiction.
Qed.

Lemma intersecting_excludes_self_witness :
  exists rows,
    spatial_polygons_intersecting 3 sample_db = mkResponse HTTP_200_OK (Rows rows) /\
    spatial_polygons_intersecting 9 sample_db = not_found.
Proof.
  destruct (proj2 (@intersecting_excludes_self planar 3%N sample_db) _ eq_refl)
    as (rows & E & _).
  exists rows. split; [exact E |].
  exact (proj1 (@intersecting_excludes_self planar 9%N sample_db) eq_refl).
Defined.








(** X12. The [is_active] parameter of the list views reads as true only when it
    spells [true], in any case; any other text, the empty one included,
    selects the inactive entities. *)
Theorem is_active_reads_only_true `{GIS} (q : QueryDict) (v : string) (db : DB) :
  qget "is_active" q = Some v ->
  (lower v = "true"%string ->
   (forall r, In r (points_queryset q db) -> SpatialPointData.is_active r = true) /\
   (forall r, In r (polygons_queryset q db) -> SpatialPolygonData.is_active r = true)) /\
  (lower v <> "true"%string ->
   (forall r, In r (points_queryset q db) -> SpatialPointData.is_active r = false) /\
   (forall r, In r (polygons_queryset q db) -> SpatialPolygonData.is_active r = false)).
Proof.
  intro Q.
  assert (P : forall r, In r (points_queryset q db) ->
                        SpatialPointData.is_active r = parse_flag v).
  { intros r I. unfold points_queryset in I. apply filter_common_In in I.
    destruct I as (_ & _ & A). apply (A v Q). }
  assert (G : forall r, In r (polygons_queryset q db) ->
                        SpatialPolygonData.is_active r = parse_flag v).
  { intros r I. unfold polygons_queryset in I.
    apply filter_bound_In in I. destruct I as [I _].
    apply filter_bound_In in I. destruct I as [I _].
    apply filter_common_In in I. destruct I as (_ & _ & A). apply (A v Q). }
  unfold parse_flag in P, G. split; intro E.
  - apply String.eqb_eq in E. rewrite E in P, G. auto.
  - apply String.eqb_neq in E. rewrite E in P, G. auto.
Qed.

Lemma is_active_reads_only_true_witness :
  (forall r, In r (points_queryset [("is_active", "1")]%string sample_db) ->
             SpatialPointData.is_active r = false) /\
  (forall r, In r (points_queryset [("is_active", "TRUE")]%string sample_db) ->
             SpatialPointData.is_active r = true).
Proof.
  split.
  - refine (proj1 (proj2 (@is_active_reads_only_true planar
                            [("is_active", "1")]%string "1" sample_db eq_refl) _)).
    discriminate.
  - exact (proj1 (proj1 (@is_active_reads_only_true planar
                           [("is_active", "TRUE")]%string "TRUE" sample_db eq_refl)
                    eq_refl)).
Defined.

(** X13. The point views never touch the polygons, and the polygon views never
    touch the points. *)
Theorem tables_are_independent `{GIS} (c : Call) (db : DB) :
  (is_point_call c = true -> polygons (handle c db) = polygons db) /\
  (is_point_call c = false -> points (handle c db) = points db).
Proof.
  destruct c as [m q d | m i d | d | m q d | m i d | d]; simpl;
    (split; [intro E | intro E]); try discriminate.
  - unfold spatial_points_list_create. destruct m; try reflexivity.
    destruct (SpatialPointDataSerializer false d) as [e | v] eqn:Ser; [reflexivity |].
    destruct (@create_point_appends d v db Ser) as (row & db' & C & _).
    pose proof (full_validation_has_geometry _ _ _ _ Ser) as (g & loc & _ & _ & Vg).
    destruct (@create_point_spec v loc db Vg) as (row1 & db1 & C1 & _ & Pg & _).
    rewrite C1. exact Pg.
  - unfold spatial_point_detail.
    destruct m; try reflexivity;
      (destruct (get_point i db); [| reflexivity]);
      try reflexivity; cbv beta iota zeta;
      match goal with
      | |- context [SpatialPointDataSerializer ?p d] =>
          destruct (SpatialPointDataSerializer p d); reflexivity
      end.
  - unfold spatial_points_bulk_create.
    apply (@bulk_create_invariant _ _ "points" POINTS_MISSING POINTS_NOT_ARRAY (SpatialPointDataSerializer false) create_point
             (fun x => polygons x = polygons db)); [| reflexivity].
    intros item v db0 row db' Ser C P.
    pose proof (full_validation_has_geometry _ _ _ _ Ser) as (g & loc & _ & _ & Vg).
    destruct (@create_point_spec v loc db0 Vg) as (row1 & db1 & C1 & _ & Pg & _).
    rewrite C1 in C. injection C as _ <-. congruence.
  - unfold spatial_polygons_list_create. destruct m; try reflexivity.
    destruct (SpatialPolygonDataSerializer false d) as [e | v]; [reflexivity |].
    destruct (create_polygon v db) as [[row db'] |] eqn:C; [| reflexivity].
    unfold create_polygon in C. simpl in C. apply save_some in C. simpl in C.
    destruct C as (g & _ & _ & _ & _ & _ & _ & _ & _ & _ & _ & _ & Pts & _). exact Pts.
  - unfold spatial_polygon_detail.
    destruct m; try reflexivity;
      (destruct (get_polygon i db) as [polygon |]; [| reflexivity]);
      try reflexivity; cbv beta iota zeta;
      match goal with
      | |- context [SpatialPolygonDataSerializer ?p d] =>
          destruct (SpatialPolygonDataSerializer p d) as [e | v]; [reflexivity |]
      end;
      (destruct (update_polygon polygon v db) as [[row db'] |] eqn:U; [| reflexivity];
       unfold update_polygon in U; apply save_some in U;
       destruct U as (g & _ & _ & _ & _ & _ & _ & _ & _ & _ & _ & _ & Pts & _);
       exact Pts).
  - unfold spatial_polygons_bulk_create.
    apply (@bulk_create_invariant _ _ "polygons" POLYGONS_MISSING POLYGONS_NOT_ARRAY (SpatialPolygonDataSerializer false)
             create_polygon (fun x => points x = points db)); [| reflexivity].
    intros item v db0 row db' Ser C P.
    unfold create_polygon in C. simpl in C. apply save_some in C. simpl in C.
    destruct C as (g & _ & _ & _ & _ & _ & _ & _ & _ & _ & _ & _ & Pts & _). congruence.
Qed.

Lemma tables_are_independent_witness :
  polygons (handle (PointDetail DELETE 0 no_payload) sample_db) = polygons sample_db.
Proof.
  exact (proj1 (@tables_are_independent planar (PointDetail DELETE 0 no_payload)
                  sample_db) eq_refl).
Defined.

(** X14. A PUT must carry the geometry, a PATCH need not: without a location, PUT
    is refused with 400 and changes nothing, while PATCH, if its name passes,
    is accepted and keeps the stored location. *)
Theorem put_requires_the_geometry `{GIS} (point_id : UUID) (d : Payload) (db : DB)
    (old : PointRow) :
  get_point point_id db = Some old ->
  in_geometry d = None ->
  (exists e,
      spatial_point_detail PUT point_id d db
      = (mkResponse HTTP_400_BAD_REQUEST (FieldErrors e), db) /\
      In ("location"%string, "This field is required."%string) e) /\
  (check_name true (in_name d) = [] ->
   exists row db',
     spatial_point_detail PATCH point_id d db = (mkResponse HTTP_200_OK (One row), db') /\
     SpatialPointData.location row = SpatialPointData.location old).
Proof.
  intros F G. unfold spatial_point_detail. rewrite F. cbv beta iota zeta. split.
  - destruct (@run_validation_geo_error _ "location" validate_location false false d
                ("location"%string, "This field is required."%string) [] None)
      as (e & E & I).
    { unfold check_geo. rewrite G. reflexivity. }
    unfold SpatialPointDataSerializer. rewrite E. eauto.
  - intro N.
    destruct (partial_point_validation_without_geometry d G N) as (v & E & Vg).
    rewrite E. unfold update_point. simpl. rewrite Vg.
    do 2 eexists. split; reflexivity.
Qed.

Lemma put_requires_the_geometry_witness :
  exists e,
    spatial_point_detail PUT 1 deactivate sample_db
    = (mkResponse HTTP_400_BAD_REQUEST (FieldErrors e), sample_db) /\
    In ("location"%string, "This field is required."%string) e.
Proof.
  exact (proj1 (@put_requires_the_geometry planar 1%N deactivate sample_db _
                  eq_refl eq_refl)).
Defined.

(** X15. The validators report the first check that fails: the type of the
    geometry, then the latitude before the longitude for a point, and the
    validity before the area for a polygon; the serializer files the message
    under the name of its geometry field. *)
Theorem validators_report_first_failure `{GIS} :
  (forall value,
      (forall p, value <> GPoint p) ->
      validate_location value = inl "Location must be a valid Point geometry"%string) /\
  (forall p,
      ~ (-90 <= pt_y p /\ pt_y p <= 90) ->
      validate_location (GPoint p)
      = inl "Latitude must be between -90 and 90 degrees"%string) /\
  (forall p,
      -90 <= pt_y p /\ pt_y p <= 90 ->
      ~ (-180 <= pt_x p /\ pt_x p <= 180) ->
      validate_location (GPoint p)
      = inl "Longitude must be between -180 and 180 degrees"%string) /\
  (forall value,
      (forall g, value <> GPolygon g) ->
      validate_geometry value = inl "Geometry must be a valid Polygon"%string) /\
  (forall g,
      geos_valid g = false ->
      validate_geometry (GPolygon g) = inl "Invalid polygon geometry"%string) /\
  (forall g,
      geos_valid g = true -> geom_area g < MIN_AREA ->
      validate_geometry (GPolygon g) = inl "Polygon area is too small"%string) /\
  (forall partial d value msg,
      in_geometry d = Some (Decoded value) ->
      (validate_location value = inl msg ->
       exists e, SpatialPointDataSerializer partial d = inl e /\
                 In ("location"%string, msg) e) /\
      (validate_geometry value = inl msg ->
       exists e, SpatialPolygonDataSerializer partial d = inl e /\
                 In ("geometry"%string, msg) e)).
Proof.
  split.
  { intros value N. destruct value as [p | c s | g | ps]; try reflexivity.
    exfalso. apply (N p). reflexivity. }
  split.
  { intros p N. unfold validate_location.
    destruct (Qleb (-90) (pt_y p)) eqn:A, (Qleb (pt_y p) 90) eqn:B; try reflexivity.
    apply Qleb_le in A, B. tauto. }
  split.
  { intros p [A B] N. unfold validate_location.
    apply Qleb_le in A, B. rewrite A, B. simpl.
    destruct (Qleb (-180) (pt_x p)) eqn:C, (Qleb (pt_x p) 180) eqn:D; try reflexivity.
    apply Qleb_le in C, D. tauto. }
  split.
  { intros value N. destruct value as [p | c s | g | ps]; try reflexivity.
    exfalso. apply (N g). reflexivity. }
  split.
  { intros g V. unfold validate_geometry. rewrite V. reflexivity. }
  split.
  { intros g V A. unfold validate_geometry. rewrite V. simpl.
    apply Qltb_lt in A. rewrite A. reflexivity. }
  intros partial d value msg G.
  assert (K : forall (T : Type) (field : string) (hook : GEOSGeometry -> string + T)
                     (with_area : bool),
             hook value = inl msg ->
             exists e, run_validation field hook with_area partial d = inl e /\
                       In (field, msg) e).
  { intros T field hook with_area Hk.
    apply (@run_validation_geo_error _ field hook with_area partial d (field, msg)
             [] None).
    unfold check_geo. rewrite G, Hk. reflexivity. }
  split; intro Hk; apply K; exact Hk.
Qed.

Lemma validators_report_first_failure_witness :
  validate_location (GPoint (mkPoint 200 95 WGS84))
  = inl "Latitude must be between -90 and 90 degrees"%string.
Proof.
  refine (proj1 (proj2 (@validators_report_first_failure planar))
            (mkPoint 200 95 WGS84) _).
  intros [_ L]. apply Qle_bool_iff in L. discriminate L.
Defined.



Lemma filter_insert_by_length {R} (leb : R -> R -> bool) (keep : R -> bool) (x : R)
    (l : list R) :
  List.length (filter keep (insert_by leb x l)) = List.length (filter keep (x :: l)).
Proof.
  induction l as [| y r IH]; [reflexivity |].
  simpl. destruct (leb x y); [reflexivity |].
  simpl in *. destruct (keep y), (keep x); simpl in *; lia.
Qed.

Lemma filter_order_by_length {R} (leb : R -> R -> bool) (keep : R -> bool)
    (l : list R) :
  List.length (filter keep (order_by leb l)) = List.length (filter keep l).
Proof.
  induction l as [| x r IH]; [reflexivity |].
  simpl order_by. rewrite filter_insert_by_length. simpl.
  destruct (keep x); simpl; rewrite IH; reflexivity.
Qed.

(** X17. The list views and the summary agree: the [count] of the list of points
    asked with [is_active=true] and no other filter is the [total_points] of
    the summary, and likewise for polygons. *)
Theorem active_list_count_is_summary_count `{GIS} (q : QueryDict) (v : string)
    (db : DB) :
  qget "is_active" q = Some v -> lower v = "true"%string ->
  qget "name" q = None -> qget "min_area" q = None -> qget "max_area" q = None ->
  forall total_points total_polygons sqm sqkm stamp,
    spatial_analysis_summary db
    = mkResponse HTTP_200_OK (Summary total_points total_polygons sqm sqkm stamp) ->
    (forall data count page,
        fst (spatial_points_list_create GET q data db)
        = mkResponse HTTP_200_OK (Page count page) ->
        count = total_points) /\
    (forall data count page,
        fst (spatial_polygons_list_create GET q data db)
        = mkResponse HTTP_200_OK (Page count page) ->
        count = total_polygons).
Proof.
  intros Qa T Qn Qlo Qhi total_points total_polygons sqm sqkm stamp S.
  unfold spatial_analysis_summary in S. injection S as <- <- _ _ _.
  assert (F : parse_flag v = true) by (apply String.eqb_eq; exact T).
  split; intros data count page E; simpl in E; unfold paginated_response in E.
  - destruct (paginate_queryset _ q); [| discriminate]. injection E as <- _.
    unfold points_queryset, filter_common. rewrite Qn, Qa, F.
    rewrite filter_order_by_length. f_equal. apply filter_ext.
    intro r. destruct (SpatialPointData.is_active r); reflexivity.
  - destruct (paginate_queryset _ q); [| discriminate]. injection E as <- _.
    unfold polygons_queryset, filter_common. rewrite Qn, Qa, Qlo, Qhi, F. simpl.
    rewrite filter_order_by_length. f_equal. apply filter_ext.
    intro r. destruct (SpatialPolygonData.is_active r); reflexivity.
Qed.

Lemma active_list_count_is_summary_count_witness :
  exists count page,
    fst (spatial_points_list_create GET [("is_active", "true")]%string no_payload
           sample_db)
    = mkResponse HTTP_200_OK (Page count page) /\
    count = 2%nat.
Proof.
  do 2 eexists. split; [reflexivity |].
  exact (proj1 (@active_list_count_is_summary_count planar
                  [("is_active", "true")]%string "true" sample_db
                  eq_refl eq_refl eq_refl eq_refl eq_refl _ _ _ _ _ eq_refl)
           no_payload _ _ eq_refl).
Defined.
